(** * My Local Mart back end: cart, checkout and order lifecycle

    A shallow embedding of the Express/Mongoose handlers of
    [backend/routes/cart.js], [backend/routes/orders.js] and of the model
    methods of [models/Cart.js], [models/Order.js], [models/Product.js] and
    [models/Store.js], followed by the properties proved about them.

    Modelling conventions.
    - A MongoDB collection is a finite map from the document id to the
      document ([gmap string _]); the [orders] collection is a list whose
      positions are the order ids, a new order being appended.
    - JavaScript numbers that the validators force to be integers (cart and
      order quantities, stock, rating values, counters) are [Z]; a handler
      takes such a number as the JSON number of the request body (a
      numeric string, which [isInt] lets through as well, is outside the
      model).  Prices and amounts are exact rationals ([Qc]).  The rating
      average of a store, which the rating handler computes and rounds, is
      an IEEE 754 double ([double], with the arithmetic of [SpecFloat]).
    - [new Date()] is the argument [now] of a handler.
    - An [async] handler runs to completion on the database it is given:
      every handler is a function [DB -> Response * DB].  An exception
      caught by the handler's [try/catch] is the reply 500.
    - A stored document satisfies its schema, and saving a loaded document
      succeeds.  The [save()] of a new order is modelled with the
      validation of its required paths, which runs before the pre-save
      hook.
    - Authentication is external: a handler receives the authenticated
      user id. *)

From Stdlib Require Import ZArith QArith Qcanon Qround Lia Lqa Ascii Floats.SpecFloat.
From stdpp Require Import base numbers option list strings gmap fin_maps.

Abbreviation ObjectId := string.

(** ** JavaScript helpers *)

(** [Math.round]: the nearest integer, halves rounded up. *)
Definition Math_round (x : Qc) : Z := Qfloor (x + Q2Qc (1 # 2))%Qc.

(** *** IEEE 754 doubles

    A JavaScript number where its rounding matters: binary64, with the
    operations of [SpecFloat] at precision 53 and maximal exponent 1024
    (round to nearest, ties to even). *)
Abbreviation double := spec_float.

Definition Number_of_Z (z : Z) : double := binary_normalize 53 1024 z 0 false.
Definition Number_add : double -> double -> double := SFadd 53 1024.
Definition Number_mul : double -> double -> double := SFmul 53 1024.
Definition Number_div : double -> double -> double := SFdiv 53 1024.

(** [Math.round] on a double: the nearest integer, halves towards
    +Infinity, computed exactly from mantissa and exponent; a result of
    zero keeps the sign of the argument; NaN, the infinities and the zeros
    come back as they are. *)
Definition Math_round_double (x : double) : double :=
  match x with
  | S754_finite s m e =>
      if (0 <=? e)%Z then x
      else
        let n := if s then Z.neg m else Z.pos m in
        let r := ((2 * n + 2 ^ (- e)) / 2 ^ (- e + 1))%Z in
        if (r =? 0)%Z then S754_zero s else Number_of_Z r
  | _ => x
  end.

(** [Math.round(x * 100) / 100]. *)
Definition round2 (x : double) : double :=
  Number_div (Math_round_double (Number_mul x (Number_of_Z 100))) (Number_of_Z 100).

(** *** Document ids

    A request names a document by the 24 hexadecimal digits of its id;
    [isMongoId] and the cast of [findById] take the digits in either letter
    case, and [toString()] of an id gives them in lower case. *)
Definition hexLower (c : ascii) : ascii :=
  let n := nat_of_ascii c in
  if Nat.leb 65 n && Nat.leb n 70 then ascii_of_nat (n + 32) else c.

Fixpoint ObjectId_cast (s : string) : ObjectId :=
  match s with
  | EmptyString => EmptyString
  | String c s' => String (hexLower c) (ObjectId_cast s')
  end.

(** [x || 0] on a number: a falsy number is zero already. *)
Definition orZero (x : Qc) : Qc := if decide (x = 0%Qc) then 0%Qc else x.

(** [s || d] on an optional string: [undefined] and the empty string are
    falsy. *)
Definition orDefault (s : option string) (d : string) : string :=
  match s with
  | Some v => if String.eqb v "" then d else v
  | None => d
  end.

(** ** models/Product.js *)
Module Product.

Inductive Status := active | inactive | out_of_stock | discontinued.

Definition status_eqb (a b : Status) : bool :=
  match a, b with
  | active, active | inactive, inactive
  | out_of_stock, out_of_stock | discontinued, discontinued => true
  | _, _ => false
  end.

Record t := mk {
  store : ObjectId;
  name : string;
  sellingPrice : Qc;          (* pricing.sellingPrice *)
  unit : string;              (* pricing.unit *)
  image : string;             (* images[0]?.url || '' *)
  stock : Z;                  (* inventory.stock *)
  trackStock : bool;          (* inventory.trackStock *)
  status : Status
}.

Definition set_stock (p : t) (s : Z) : t :=
  mk (store p) (name p) (sellingPrice p) (unit p) (image p) s (trackStock p) (status p).

Definition set_status (p : t) (s : Status) : t :=
  mk (store p) (name p) (sellingPrice p) (unit p) (image p) (stock p) (trackStock p) s.

(** [productSchema.methods.updateStock]. *)
Definition updateStock (quantity : Z) (p : t) : t :=
  if trackStock p then
    let p1 := set_stock p (Z.max 0 (stock p + quantity)) in
    if (stock p1 =? 0)%Z then set_status p1 out_of_stock
    else if status_eqb (status p1) out_of_stock then set_status p1 active
    else p1
  else p.

(** The update document [{ $inc: { 'inventory.stock': d } }]. *)
Definition inc_stock (d : Z) (p : t) : t := set_stock p (stock p + d).

End Product.

(** ** models/Store.js *)
Module Store.

Record t := mk {
  owner : ObjectId;
  isActive : bool;
  deliveryFee : Qc;           (* services.deliveryFee *)
  rating_average : double;    (* rating.average *)
  rating_count : Z;           (* rating.count *)
  totalOrders : Z;            (* stats.totalOrders *)
  totalRevenue : Qc           (* stats.totalRevenue *)
}.

(** [{ $inc: { 'stats.totalOrders': 1, 'stats.totalRevenue': total } }]. *)
Definition inc_stats (total : Qc) (s : t) : t :=
  mk (owner s) (isActive s) (deliveryFee s) (rating_average s) (rating_count s)
     (totalOrders s + 1) (totalRevenue s + total)%Qc.

(** [{ 'rating.average': a, 'rating.count': c }]. *)
Definition set_rating (a : double) (c : Z) (s : t) : t :=
  mk (owner s) (isActive s) (deliveryFee s) a c (totalOrders s) (totalRevenue s).

End Store.

(** ** models/Cart.js *)
Module Cart.

Record item := mkItem {
  product : ObjectId;
  quantity : Z;
  price : Qc
}.

Record t := mk {
  items : list item;
  lastUpdated : nat
}.

Definition is_product (productId : ObjectId) (i : item) : bool :=
  String.eqb (product i) productId.

(** Virtuals [totalItems] and [totalAmount]. *)
Definition totalItems (c : t) : Z :=
  fold_left (fun total i => (total + quantity i)%Z) (items c) 0%Z.

Definition totalAmount (c : t) : Qc :=
  fold_left (fun total i => (total + price i * Qc_of_Z (quantity i))%Qc)
            (items c) 0%Qc.

(** [existingItem.quantity += quantity; existingItem.price = price] on the
    first line of the product ([Array.prototype.find]). *)
Fixpoint bump (productId : ObjectId) (q : Z) (pr : Qc) (l : list item) : list item :=
  match l with
  | [] => []
  | i :: l' =>
      if is_product productId i
      then mkItem (product i) (quantity i + q) pr :: l'
      else i :: bump productId q pr l'
  end.

(** [item.quantity = quantity] on the first line of the product. *)
Fixpoint set_quantity (productId : ObjectId) (q : Z) (l : list item) : list item :=
  match l with
  | [] => []
  | i :: l' =>
      if is_product productId i
      then mkItem (product i) q (price i) :: l'
      else i :: set_quantity productId q l'
  end.

Definition addItem (now : nat) (productId : ObjectId) (q : Z) (pr : Qc) (c : t) : t :=
  match List.find (is_product productId) (items c) with
  | Some _ => mk (bump productId q pr (items c)) now
  | None => mk (items c ++ [mkItem productId q pr]) now
  end.

Definition removeItem (now : nat) (productId : ObjectId) (c : t) : t :=
  mk (List.filter (fun i => negb (is_product productId i)) (items c)) now.

Definition updateItemQuantity (now : nat) (productId : ObjectId) (q : Z) (c : t) : t :=
  match List.find (is_product productId) (items c) with
  | Some _ =>
      if (q <=? 0)%Z then removeItem now productId c
      else mk (set_quantity productId q (items c)) now
  | None => c
  end.

Definition clearCart (now : nat) (c : t) : t := mk [] now.

(** [cartSchema.pre('save')]. *)
Definition preSave (now : nat) (c : t) : t := mk (items c) now.

End Cart.

(** ** models/Order.js *)
Module Order.

Inductive Status :=
  pending | confirmed | preparing | ready | out_for_delivery
| delivered | cancelled | refunded.

Definition status_eqb (a b : Status) : bool :=
  match a, b with
  | pending, pending | confirmed, confirmed | preparing, preparing
  | ready, ready | out_for_delivery, out_for_delivery
  | delivered, delivered | cancelled, cancelled | refunded, refunded => true
  | _, _ => false
  end.

Inductive DeliveryType := pickup | delivery.

Record item := mkItem {
  product : ObjectId;
  snapshot_name : string;     (* productSnapshot.name *)
  snapshot_price : Qc;        (* productSnapshot.price *)
  snapshot_unit : string;     (* productSnapshot.unit *)
  snapshot_image : string;    (* productSnapshot.image *)
  quantity : Z;
  price : Qc;
  total : Qc
}.

Record event := mkEvent {
  ev_status : Status;
  ev_timestamp : nat;
  ev_note : string
}.

Record t := mk {
  customer : ObjectId;
  store : ObjectId;
  items : list item;
  status : Status;
  delivery_type : DeliveryType;
  delivery_address : option string;
  delivery_fee : Qc;
  deliveredAt : option nat;   (* delivery.deliveredAt *)
  subtotal : Qc;              (* pricing.subtotal *)
  deliveryFee : Qc;           (* pricing.deliveryFee *)
  tax : Qc;                   (* pricing.tax *)
  discount : Qc;              (* pricing.discount *)
  pricing_total : Qc;         (* pricing.total *)
  timeline : list event;
  notes_customer : option string;
  rating_value : option Z;
  rating_review : string;
  ratedAt : option nat        (* rating.ratedAt *)
}.

(** [new Order({...})] as the checkout handler calls it; the schema
    defaults fill in the rest. *)
Definition create (customer store : ObjectId) (items : list item)
    (ty : DeliveryType) (address : option string) (fee subtotal total : Qc)
    (notes : option string) : t :=
  mk customer store items pending ty address fee None
     subtotal fee 0%Qc 0%Qc total [] notes None "" None.

(** [orderSchema.methods.updateStatus]; the status ['paid'] of its second
    branch is not an order status. *)
Definition updateStatus (now : nat) (newStatus : Status) (note : string) (o : t) : t :=
  mk (customer o) (store o) (items o) newStatus
     (delivery_type o) (delivery_address o) (delivery_fee o)
     (if status_eqb newStatus delivered then Some now else deliveredAt o)
     (subtotal o) (deliveryFee o) (tax o) (discount o) (pricing_total o)
     (timeline o ++ [mkEvent newStatus now note])
     (notes_customer o) (rating_value o) (rating_review o) (ratedAt o).

(** [orderSchema.methods.calculateTotal]. *)
Definition calculateTotal (o : t) : t :=
  let sub := fold_left (fun acc i => (acc + total i)%Qc) (items o) 0%Qc in
  mk (customer o) (store o) (items o) (status o)
     (delivery_type o) (delivery_address o) (delivery_fee o) (deliveredAt o)
     sub (deliveryFee o) (tax o) (discount o)
     (sub + deliveryFee o + tax o - discount o)%Qc
     (timeline o) (notes_customer o) (rating_value o) (rating_review o) (ratedAt o).

(** [orderSchema.methods.addRating]. *)
Definition addRating (now : nat) (rating : Z) (review : string) (o : t) : t :=
  mk (customer o) (store o) (items o) (status o)
     (delivery_type o) (delivery_address o) (delivery_fee o) (deliveredAt o)
     (subtotal o) (deliveryFee o) (tax o) (discount o) (pricing_total o)
     (timeline o) (notes_customer o) (Some rating) review (Some now).

Definition set_timeline (tl : list event) (o : t) : t :=
  mk (customer o) (store o) (items o) (status o)
     (delivery_type o) (delivery_address o) (delivery_fee o) (deliveredAt o)
     (subtotal o) (deliveryFee o) (tax o) (discount o) (pricing_total o)
     tl (notes_customer o) (rating_value o) (rating_review o) (ratedAt o).

(** A document made by [new Order({...})] and not saved yet, with what the
    constructor call gave for the path [orderNumber].  (A stored order has
    its number; no property here reads it, and [t] leaves it out.) *)
Record fresh := mkFresh {
  orderNumber : option string;
  doc : t
}.

(** The validation [save()] runs on a new document before the pre-save
    hooks: the schema's [required] paths.  [customer], [store],
    [delivery.type], [pricing.subtotal] and [pricing.total] are set in every
    [t]; [orderNumber] must be set and not empty.  The [min] bounds of the
    schema are left out: they can only make more saves fail. *)
Definition validate (o : fresh) : bool :=
  match orderNumber o with
  | Some n => negb (String.eqb n "")
  | None => false
  end.

(** [orderSchema.pre('save')].  Its first step gives a new document without
    an order number a generated one; it runs after the validation, which
    such a document does not pass, and is left out. *)
Definition preSave (now : nat) (isNew : bool) (o : t) : t :=
  let o1 := if isNew then set_timeline [mkEvent pending now "Order placed"] o else o in
  calculateTotal o1.

(** [if (order.rating.value)]: set and not zero. *)
Definition rated (o : t) : bool :=
  match rating_value o with
  | Some v => negb (v =? 0)%Z
  | None => false
  end.

(** [['delivered', 'cancelled', 'refunded'].includes(order.status)]. *)
Definition final (s : Status) : bool :=
  match s with
  | delivered | cancelled | refunded => true
  | _ => false
  end.

End Order.

(** ** The database *)

Record DB := mkDB {
  products : gmap string Product.t;
  stores : gmap string Store.t;
  carts : gmap string Cart.t;       (* keyed by the owning user *)
  orders : list Order.t
}.

Definition set_products (f : gmap string Product.t -> gmap string Product.t) (db : DB) : DB :=
  mkDB (f (products db)) (stores db) (carts db) (orders db).
Definition set_stores (f : gmap string Store.t -> gmap string Store.t) (db : DB) : DB :=
  mkDB (products db) (f (stores db)) (carts db) (orders db).
Definition set_carts (f : gmap string Cart.t -> gmap string Cart.t) (db : DB) : DB :=
  mkDB (products db) (stores db) (f (carts db)) (orders db).
Definition set_orders (f : list Order.t -> list Order.t) (db : DB) : DB :=
  mkDB (products db) (stores db) (carts db) (f (orders db)).

(** [await cart.save()]. *)
Definition Cart_save (now : nat) (user : ObjectId) (c : Cart.t) (db : DB) : DB :=
  set_carts (insert user (Cart.preSave now c)) db.

(** [await order.save()] of a new document: the validation, the pre-save
    hook, the insert.  A failed validation makes [save()] throw: [None]. *)
Definition Order_insert (now : nat) (o : Order.fresh) (db : DB) : option (Order.t * DB) :=
  if Order.validate o then
    let saved := Order.preSave now true (Order.doc o) in
    Some (saved, set_orders (fun os => os ++ [saved]) db)
  else None.

(** [await order.save()] of a loaded document. *)
Definition Order_save (now : nat) (id : nat) (o : Order.t) (db : DB) : DB :=
  set_orders (fun os => <[id := Order.preSave now false o]> os) db.

(** [Product.findByIdAndUpdate(id, { $inc: { 'inventory.stock': d } })]. *)
Definition Product_incStock (id : ObjectId) (d : Z) (db : DB) : DB :=
  set_products (alter (Product.inc_stock d) id) db.

(** [Store.findOne({ owner })]: the first store of the owner in key order;
    [POST /stores] refuses a second store to an owner. *)
Definition Store_findByOwner (user : ObjectId) (db : DB) : option (ObjectId * Store.t) :=
  List.find (fun kv => String.eqb (Store.owner (snd kv)) user) (map_to_list (stores db)).

(** ** Replies *)

Inductive Response :=
| Reply (code : nat) (message : string)
| CartJson (code : nat) (cart : Cart.t)
| OrdersJson (code : nat) (orders : list Order.t).

Definition EmptyCart := Reply 400 "Cart is empty".
Definition NoValidItems := Reply 400 "No valid items to order".
Definition NotCancellable := Reply 400 "Order cannot be cancelled".
Definition NotDeliveredYet := Reply 400 "Can only rate delivered orders".
Definition AlreadyRated := Reply 400 "Order already rated".

(** ** routes/cart.js *)

(** The filter of [GET /] and [GET /summary]: the populated product exists,
    is active, and has the stock of the line or is not tracked. *)
Definition available (db : DB) (i : Cart.item) : bool :=
  match products db !! Cart.product i with
  | Some p =>
      Product.status_eqb (Product.status p) Product.active
      && ((Cart.quantity i <=? Product.stock p)%Z || negb (Product.trackStock p))
  | None => false
  end.

(** [GET /]. *)
Definition getCart (now : nat) (user : ObjectId) (db : DB) : Response * DB :=
  let '(cart, db1) :=
    match carts db !! user with
    | Some c => (c, db)
    | None => (Cart.preSave now (Cart.mk [] now), Cart_save now user (Cart.mk [] now) db)
    end in
  let availableItems := List.filter (available db1) (Cart.items cart) in
  if negb (length availableItems =? length (Cart.items cart))%nat
  then
    let cart' := Cart.mk availableItems (Cart.lastUpdated cart) in
    (CartJson 200 (Cart.preSave now cart'), Cart_save now user cart' db1)
  else (CartJson 200 cart, db1).

(** [POST /add], for a [quantity] sent as a JSON number.  [productId] is
    the string of the request: [Product.findById] and the pushed line take
    the id it denotes, the search for an existing line compares the lines'
    ids with the string itself. *)
Definition addToCart (now : nat) (user : ObjectId) (productId : string) (quantity : Z)
    (db : DB) : Response * DB :=
  if (quantity <? 1)%Z then (Reply 400 "Valid quantity required", db) else
  match products db !! ObjectId_cast productId with
  | None => (Reply 404 "Product not found", db)
  | Some product =>
    if negb (Product.status_eqb (Product.status product) Product.active)
    then (Reply 400 "Product is not available", db) else
    match stores db !! Product.store product with
    | None => (Reply 500 "Failed to add item to cart", db)
    | Some store =>
      if negb (Store.isActive store) then (Reply 400 "Store is not active", db) else
      if Product.trackStock product && (Product.stock product <? quantity)%Z
      then (Reply 400 "Insufficient stock available", db) else
      let cart := default (Cart.mk [] now) (carts db !! user) in
      match List.find (Cart.is_product productId) (Cart.items cart) with
      | Some existingItem =>
          let newQuantity := (Cart.quantity existingItem + quantity)%Z in
          if Product.trackStock product && (Product.stock product <? newQuantity)%Z
          then (Reply 400 "Insufficient stock for total quantity", db)
          else
            let cart' := Cart.mk (Cart.bump productId quantity (Product.sellingPrice product)
                                            (Cart.items cart)) (Cart.lastUpdated cart) in
            (CartJson 200 (Cart.preSave now cart'), Cart_save now user cart' db)
      | None =>
          let cart' := Cart.mk (Cart.items cart
                                ++ [Cart.mkItem (ObjectId_cast productId) quantity
                                                (Product.sellingPrice product)])
                               (Cart.lastUpdated cart) in
          (CartJson 200 (Cart.preSave now cart'), Cart_save now user cart' db)
      end
    end
  end.

(** [PUT /update], for a [quantity] sent as a JSON number.  [productId] is
    the string of the request: [Product.findById] takes the id it denotes,
    the cart methods compare the lines' ids with the string itself. *)
Definition updateCart (now : nat) (user : ObjectId) (productId : string) (quantity : Z)
    (db : DB) : Response * DB :=
  if (quantity <? 0)%Z then (Reply 400 "Valid quantity required", db) else
  match carts db !! user with
  | None => (Reply 404 "Cart not found", db)
  | Some cart =>
    if (quantity =? 0)%Z
    then
      let cart' := Cart.removeItem now productId cart in
      (CartJson 200 (Cart.preSave now cart'), Cart_save now user cart' db)
    else
      match products db !! ObjectId_cast productId with
      | None => (Reply 400 "Product not available", db)
      | Some product =>
        if negb (Product.status_eqb (Product.status product) Product.active)
        then (Reply 400 "Product not available", db) else
        if Product.trackStock product && (Product.stock product <? quantity)%Z
        then (Reply 400 "Insufficient stock available", db) else
        let cart' := Cart.updateItemQuantity now productId quantity cart in
        (CartJson 200 (Cart.preSave now cart'), Cart_save now user cart' db)
      end
  end.

(** [DELETE /remove/:productId]; [removeItem] compares the lines' ids with
    the string of the request. *)
Definition removeFromCart (now : nat) (user productId : ObjectId) (db : DB) : Response * DB :=
  match carts db !! user with
  | None => (Reply 404 "Cart not found", db)
  | Some cart =>
      let cart' := Cart.removeItem now productId cart in
      (CartJson 200 (Cart.preSave now cart'), Cart_save now user cart' db)
  end.

(** [DELETE /clear]. *)
Definition clearCart (now : nat) (user : ObjectId) (db : DB) : Response * DB :=
  match carts db !! user with
  | None => (Reply 404 "Cart not found", db)
  | Some cart =>
      let cart' := Cart.clearCart now cart in
      (CartJson 200 (Cart.preSave now cart'), Cart_save now user cart' db)
  end.

(** ** routes/orders.js: [POST /checkout] *)

(** A cart line with its populated product. *)
Abbreviation PItem := (Cart.item * Product.t)%type.

(** [.populate('items.product', ...)]: a dangling reference becomes [null]. *)
Definition populate (db : DB) (l : list Cart.item) : list (Cart.item * option Product.t) :=
  map (fun i => (i, products db !! Cart.product i)) l.

(** [if (!storeGroups[k]) storeGroups[k] = []; storeGroups[k].push(x)].
    The association list keeps the keys in the order [Object.entries]
    enumerates them: a 24-digit hexadecimal id is never an array index, so
    this is the order of first insertion. *)
Fixpoint groupPush {A : Type} (k : string) (x : A) (g : list (string * list A))
    : list (string * list A) :=
  match g with
  | [] => [(k, [x])]
  | (k', xs) :: g' =>
      if String.eqb k' k then (k', xs ++ [x]) :: g'
      else (k', xs) :: groupPush k x g'
  end.

(** The [forEach] that fills [storeGroups]; [item.product.store] of a
    [null] product throws, which is [None] here. *)
Definition storeGroups (l : list (Cart.item * option Product.t))
    : option (list (string * list PItem)) :=
  fold_left
    (fun acc ip =>
       match acc, snd ip with
       | Some g, Some p => Some (groupPush (Product.store p) (fst ip, p) g)
       | _, _ => None
       end)
    l (Some []).

(** The object pushed on [validItems]. *)
Definition orderItem (item : Cart.item) (product : Product.t) : Order.item :=
  Order.mkItem (Cart.product item)
    (Product.name product) (Cart.price item) (Product.unit product) (Product.image product)
    (Cart.quantity item) (Cart.price item)
    (Cart.price item * Qc_of_Z (Cart.quantity item))%Qc.

(** The body of the inner loop over the lines of one store, on
    [validItems] and [subtotal]. *)
Definition validateStep (acc : list Order.item * Qc) (ip : PItem) : list Order.item * Qc :=
  let '(validItems, subtotal) := acc in
  let '(item, product) := ip in
  if negb (Product.status_eqb (Product.status product) Product.active) then acc
  else if Product.trackStock product && (Product.stock product <? Cart.quantity item)%Z
  then acc
  else
    let itemTotal := (Cart.price item * Qc_of_Z (Cart.quantity item))%Qc in
    (validItems ++ [orderItem item product], (subtotal + itemTotal)%Qc).

Definition validateItems (items : list PItem) : list Order.item * Qc :=
  fold_left validateStep items ([], 0%Qc).

(** The loop that takes the ordered quantities off the stock. *)
Definition decrementStock (validItems : list Order.item) (db : DB) : DB :=
  fold_left (fun d it => Product_incStock (Order.product it) (- Order.quantity it) d)
            validItems db.

(** How one iteration of the loop over the stores ends: normally, with the
    database and the [orders] array as they are then, or by an exception,
    with the database as it is then. *)
Inductive Outcome :=
| Next (db : DB) (orders_ : list Order.t)
| Thrown (db : DB).

(** One iteration of the loop over [Object.entries(storeGroups)], from the
    database and the [orders] array before it.  [new Order({...})] names no
    [orderNumber]. *)
Definition checkoutStore (now : nat) (user : ObjectId) (deliveryType : Order.DeliveryType)
    (deliveryAddress notes : option string)
    (acc : DB * list Order.t) (g : string * list PItem) : Outcome :=
  let '(db, orders_) := acc in
  let '(storeId, items) := g in
  match stores db !! storeId with
  | None => Next db orders_
  | Some store =>
    if negb (Store.isActive store) then Next db orders_ else
    let '(validItems, subtotal) := validateItems items in
    if (length validItems =? 0)%nat then Next db orders_ else
    let deliveryFee :=
      match deliveryType with
      | Order.delivery => orZero (Store.deliveryFee store)
      | Order.pickup => 0%Qc
      end in
    let total := (subtotal + deliveryFee)%Qc in
    let order := Order.mkFresh None
                   (Order.create user storeId validItems deliveryType deliveryAddress
                                 deliveryFee subtotal total notes) in
    match Order_insert now order db with
    | None => Thrown db
    | Some (saved, db1) =>
        let db2 := decrementStock validItems db1 in
        let db3 := set_stores (alter (Store.inc_stats total) storeId) db2 in
        Next db3 (orders_ ++ [saved])
    end
  end.

(** The loop over the stores; an exception ends it. *)
Fixpoint checkoutLoop (now : nat) (user : ObjectId) (deliveryType : Order.DeliveryType)
    (deliveryAddress notes : option string)
    (groups : list (string * list PItem)) (acc : DB * list Order.t) : Outcome :=
  match groups with
  | [] => Next (fst acc) (snd acc)
  | g :: groups' =>
      match checkoutStore now user deliveryType deliveryAddress notes acc g with
      | Next db orders_ =>
          checkoutLoop now user deliveryType deliveryAddress notes groups' (db, orders_)
      | Thrown db => Thrown db
      end
  end.

Definition checkout (now : nat) (user : ObjectId) (deliveryType : Order.DeliveryType)
    (deliveryAddress notes : option string) (db : DB) : Response * DB :=
  match carts db !! user with
  | None => (EmptyCart, db)
  | Some cart =>
    if (length (Cart.items cart) =? 0)%nat then (EmptyCart, db) else
    match storeGroups (populate db (Cart.items cart)) with
    | None => (Reply 500 "Failed to create order", db)
    | Some groups =>
      match checkoutLoop now user deliveryType deliveryAddress notes groups (db, []) with
      | Thrown db1 => (Reply 500 "Failed to create order", db1)
      | Next db1 orders_ =>
          if (length orders_ =? 0)%nat then (NoValidItems, db1)
          else (OrdersJson 201 orders_, Cart_save now user (Cart.clearCart now cart) db1)
      end
    end
  end.

(** ** routes/orders.js: status, cancellation and rating *)

(** [PATCH /:id/status]; the validator's list of statuses has every status
    but [refunded]. *)
Definition updateOrderStatus (now : nat) (user : ObjectId) (id : nat)
    (status : Order.Status) (note : option string) (db : DB) : Response * DB :=
  match Store_findByOwner user db with
  | None => (Reply 403 "Store not found or access denied", db)
  | Some (storeId, _) =>
    if Order.status_eqb status Order.refunded then (Reply 400 "Valid status required", db) else
    match orders db !! id with
    | None => (Reply 404 "Order not found", db)
    | Some order =>
      if negb (String.eqb (Order.store order) storeId) then (Reply 403 "Access denied", db)
      else
        let order' := Order.updateStatus now status (default "" note) order in
        (OrdersJson 200 [Order.preSave now false order'], Order_save now id order' db)
    end
  end.

(** The loop that puts the quantities of a cancelled order back. *)
Definition restoreStock (items : list Order.item) (db : DB) : DB :=
  fold_left (fun d it => Product_incStock (Order.product it) (Order.quantity it) d)
            items db.

(** [PATCH /:id/cancel]. *)
Definition cancelOrder (now : nat) (user : ObjectId) (id : nat) (reason : option string)
    (db : DB) : Response * DB :=
  match orders db !! id with
  | None => (Reply 404 "Order not found", db)
  | Some order =>
    if negb (String.eqb (Order.customer order) user) then (Reply 403 "Access denied", db) else
    if Order.final (Order.status order) then (NotCancellable, db) else
    let order' := Order.updateStatus now Order.cancelled
                    (orDefault reason "Cancelled by customer") order in
    let db1 := Order_save now id order' db in
    let db2 := restoreStock (Order.items order') db1 in
    (OrdersJson 200 [Order.preSave now false order'], db2)
  end.

(** [POST /:id/rating], for a [rating] sent as a JSON number.  The new
    average is computed in doubles, as the handler computes it. *)
Definition rateOrder (now : nat) (user : ObjectId) (id : nat) (rating : Z)
    (review : option string) (db : DB) : Response * DB :=
  if negb ((1 <=? rating)%Z && (rating <=? 5)%Z)
  then (Reply 400 "Rating must be between 1 and 5", db) else
  match orders db !! id with
  | None => (Reply 404 "Order not found", db)
  | Some order =>
    if negb (String.eqb (Order.customer order) user) then (Reply 403 "Access denied", db) else
    if negb (Order.status_eqb (Order.status order) Order.delivered)
    then (NotDeliveredYet, db) else
    if Order.rated order then (AlreadyRated, db) else
    let order' := Order.addRating now rating (default "" review) order in
    let db1 := Order_save now id order' db in
    let db2 :=
      match stores db1 !! Order.store order' with
      | Some store =>
          let newRatingCount := (Store.rating_count store + 1)%Z in
          let newAverageRating :=
            Number_div
              (Number_add
                 (Number_mul (Store.rating_average store)
                             (Number_of_Z (Store.rating_count store)))
                 (Number_of_Z rating))
              (Number_of_Z newRatingCount) in
          set_stores (alter (Store.set_rating (round2 newAverageRating) newRatingCount)
                            (Order.store order')) db1
      | None => db1
      end in
    (Reply 200 "Rating added successfully", db2)
  end.

(** ** Requests and runs *)

Inductive Request :=
| GetCart (user : ObjectId)
| AddToCart (user : ObjectId) (productId : string) (quantity : Z)
| UpdateCart (user : ObjectId) (productId : string) (quantity : Z)
| RemoveFromCart (user productId : ObjectId)
| ClearCart (user : ObjectId)
| Checkout (user : ObjectId) (deliveryType : Order.DeliveryType)
           (deliveryAddress notes : option string)
| UpdateOrderStatus (user : ObjectId) (id : nat) (status : Order.Status)
                    (note : option string)
| CancelOrder (user : ObjectId) (id : nat) (reason : option string)
| RateOrder (user : ObjectId) (id : nat) (rating : Z) (review : option string).

Definition handle (now : nat) (r : Request) (db : DB) : Response * DB :=
  match r with
  | GetCart u => getCart now u db
  | AddToCart u p q => addToCart now u p q db
  | UpdateCart u p q => updateCart now u p q db
  | RemoveFromCart u p => removeFromCart now u p db
  | ClearCart u => clearCart now u db
  | Checkout u ty a n => checkout now u ty a n db
  | UpdateOrderStatus u i s n => updateOrderStatus now u i s n db
  | CancelOrder u i reason => cancelOrder now u i reason db
  | RateOrder u i v review => rateOrder now u i v review db
  end.

(** Requests served one after the other, each at its own time. *)
Definition run (rs : list (nat * Request)) (db : DB) : DB :=
  fold_left (fun d r => snd (handle (fst r) (snd r) d)) rs db.

(** ** Vocabulary of the specification and of the proofs *)

(** §4.2 step 3b: a line survives when its product is active and, if its
    stock is tracked, the stock covers the requested quantity. *)
Definition survives (ip : PItem) : bool :=
  Product.status_eqb (Product.status (snd ip)) Product.active
  && negb (Product.trackStock (snd ip)
           && (Product.stock (snd ip) <? Cart.quantity (fst ip))%Z).

(** Quantity times the unit price captured in the cart. *)
Definition lineTotal (ip : PItem) : Qc :=
  (Cart.price (fst ip) * Qc_of_Z (Cart.quantity (fst ip)))%Qc.

Fixpoint Qcsum (l : list Qc) : Qc :=
  match l with
  | [] => 0%Qc
  | x :: l' => (x + Qcsum l')%Qc
  end.

(** §4.2 step 3a: the seller exists and is active. *)
Definition sellerActive (db : DB) (storeId : ObjectId) : bool :=
  match stores db !! storeId with
  | Some s => Store.isActive s
  | None => false
  end.

(** A seller group produces an order: the seller is active and at least one
    line survives. *)
Definition yieldsOrder (db : DB) (g : string * list PItem) : bool :=
  sellerActive db (fst g) && negb (length (List.filter survives (snd g)) =? 0)%nat.

(** The seller's configured delivery fee, for the delivery mode. *)
Definition feeFor (ty : Order.DeliveryType) (fee : Qc) : Qc :=
  match ty with
  | Order.pickup => 0%Qc
  | Order.delivery => fee
  end.

(** The stock of a product, when it exists. *)
Definition stockOf (db : DB) (productId : ObjectId) : option Z :=
  Product.stock <$> products db !! productId.

(** The units of a product on the lines of an order. *)
Fixpoint orderedQty (productId : ObjectId) (l : list Order.item) : Z :=
  match l with
  | [] => 0
  | it :: l' =>
      ((if String.eqb (Order.product it) productId then Order.quantity it else 0)
       + orderedQty productId l')%Z
  end.

(** §3: total = subtotal + deliveryFee + tax - discount. *)
Definition pricingConsistent (o : Order.t) : Prop :=
  Order.pricing_total o
  = (Order.subtotal o + Order.deliveryFee o + Order.tax o - Order.discount o)%Qc.

(** The orders carried by a reply. *)
Definition ordersOf (r : Response) : list Order.t :=
  match r with
  | OrdersJson _ os => os
  | _ => []
  end.

(** The lines of a user's stored cart. *)
Definition cartLines (db : DB) (user : ObjectId) : list Cart.item :=
  match carts db !! user with
  | Some c => Cart.items c
  | None => []
  end.

(** The document one iteration of the checkout loop builds for a seller
    group and hands to [save()], when the seller is active and a line
    survives. *)
Definition groupOrder (user : ObjectId) (ty : Order.DeliveryType)
    (address notes : option string) (db : DB) (g : string * list PItem) : option Order.t :=
  match stores db !! fst g with
  | Some store =>
      if Store.isActive store && negb (length (List.filter survives (snd g)) =? 0)%nat
      then
        let fee := match ty with
                   | Order.delivery => orZero (Store.deliveryFee store)
                   | Order.pickup => 0%Qc
                   end in
        Some (Order.create user (fst g) (fst (validateItems (snd g))) ty address fee
                (snd (validateItems (snd g))) (snd (validateItems (snd g)) + fee)%Qc notes)
      else None
  | None => None
  end.

(** The seller groups without what the loop skips: the groups that produce
    no order, and the lines that do not survive. *)
Definition keptGroups (db : DB) (groups : list (string * list PItem))
    : list (string * list PItem) :=
  map (fun g => (fst g, List.filter survives (snd g))) (List.filter (yieldsOrder db) groups).

(** The stock map after the units of the given order lines are taken off
    or put back. *)
Definition adjustStock (sign : Z) (l : list Order.item) (m : gmap string Product.t)
    : gmap string Product.t :=
  fold_left (fun m it => alter (Product.inc_stock (sign * Order.quantity it)) (Order.product it) m)
            l m.

(** Cart lines with their products, the lines whose product is gone left
    out. *)
Definition resolved (db : DB) (l : list Cart.item) : list PItem :=
  omap (fun i => (fun p => (i, p)) <$> products db !! Cart.product i) l.

(** The lines of a seller among populated lines, in their order. *)
Definition linesOf (storeId : ObjectId) (l : list PItem) : list PItem :=
  List.filter (fun ip => String.eqb (Product.store (snd ip)) storeId) l.

(** The cart lines of a user that belong to a seller, with their products,
    in cart order. *)
Definition sellerLines (db : DB) (user storeId : ObjectId) : list PItem :=
  linesOf storeId (resolved db (cartLines db user)).

(** First binding of a key in an association list. *)
Fixpoint assoc {A : Type} (k : string) (g : list (string * A)) : option A :=
  match g with
  | [] => None
  | (k', v) :: g' => if String.eqb k' k then Some v else assoc k g'
  end.

(** One step of the partition on resolved lines. *)
Definition pushLine (g : list (string * list PItem)) (ip : PItem) : list (string * list PItem) :=
  groupPush (Product.store (snd ip)) ip g.

(** The quantities of the stored carts are at least 1 (the schema's
    [min: 1]). *)
Definition cartQuantitiesSane (db : DB) : Prop :=
  forall user cart, carts db !! user = Some cart ->
    Forall (fun i => (1 <= Cart.quantity i)%Z) (Cart.items cart).

(** The quantities of the stored order lines are at least 1 (the schema's
    [min: 1]). *)
Definition orderQuantitiesSane (db : DB) : Prop :=
  Forall (fun o => Forall (fun it => (1 <= Order.quantity it)%Z) (Order.items o)) (orders db).

(** No product has a negative stock. *)
Definition stockNonNegative (db : DB) : Prop :=
  map_Forall (fun _ p => (0 <= Product.stock p)%Z) (products db).

(** The exact value of a finite double. *)
Definition double_value (x : double) : option Q :=
  match x with
  | S754_zero _ => Some 0%Q
  | S754_finite s m e =>
      Some ((if s then inject_Z (Z.neg m) else inject_Z (Z.pos m))
            * (if (0 <=? e)%Z then inject_Z (2 ^ e) else / inject_Z (2 ^ (- e))))%Q
  | _ => None
  end.

(** ** A small shop, for the worked scenarios *)
Module Scenario.

(** A tracked product with five units, whose price went from 10 to 12 after
    Alice put it in her cart, and an untracked product with no unit. *)
Definition apple : Product.t :=
  Product.mk "s1" "apple" (Qc_of_Z 12) "kg" "" 5 true Product.active.
Definition pear : Product.t :=
  Product.mk "s2" "pear" (Qc_of_Z 50) "piece" "" 0 false Product.active.
Definition plum : Product.t :=
  Product.mk "s3" "plum" (Qc_of_Z 4) "kg" "" 9 true Product.active.
(** Fewer melons are left than the cart asks for. *)
Definition melon : Product.t :=
  Product.mk "s1" "melon" (Qc_of_Z 30) "piece" "" 1 true Product.active.

(** The first seller has two ratings of five. *)
Definition shop1 : Store.t :=
  Store.mk "olga" true (Qc_of_Z 7) (Number_of_Z 5) 2 0 0%Qc.
Definition shop2 : Store.t :=
  Store.mk "omar" true (Qc_of_Z 3) (Number_of_Z 0) 0 0 0%Qc.
Definition shop3 : Store.t :=
  Store.mk "otto" false 0%Qc (Number_of_Z 0) 0 0 0%Qc.

Definition catalogue : gmap string Product.t :=
  <["apple" := apple]> (<["pear" := pear]> (<["plum" := plum]> (<["melon" := melon]> ∅))).
Definition sellers : gmap string Store.t :=
  <["s1" := shop1]> (<["s2" := shop2]> (<["s3" := shop3]> ∅)).

(** Alice holds three apples, one pear and two melons at the old price;
    Bob holds plums of the inactive third seller. *)
Definition shop : DB :=
  mkDB catalogue sellers
       (<["alice" := Cart.mk [Cart.mkItem "apple" 3 (Qc_of_Z 10);
                              Cart.mkItem "pear" 1 (Qc_of_Z 50);
                              Cart.mkItem "melon" 2 (Qc_of_Z 25)] 0]>
          (<["bob" := Cart.mk [Cart.mkItem "plum" 2 (Qc_of_Z 4)] 0]> ∅))
       [].

(** Alice's lines at the first seller. *)
Definition appleLines : list PItem := sellerLines shop "alice" "s1".

(** Two orders of Alice on record: three apples from the first seller, to
    be delivered, and a pear from the second, for pickup. *)
Definition appleOrder : Order.t :=
  Order.preSave 1 true
    (Order.create "alice" "s1"
       [Order.mkItem "apple" "apple" (Qc_of_Z 10) "kg" "" 3 (Qc_of_Z 10) (Qc_of_Z 30)]
       Order.delivery None (Qc_of_Z 7) (Qc_of_Z 30) (Qc_of_Z 37) None).
Definition pearOrder : Order.t :=
  Order.preSave 1 true
    (Order.create "alice" "s2"
       [Order.mkItem "pear" "pear" (Qc_of_Z 50) "piece" "" 1 (Qc_of_Z 50) (Qc_of_Z 50)]
       Order.pickup None 0%Qc (Qc_of_Z 50) (Qc_of_Z 50) None).

Definition placed : DB := set_orders (fun _ => [appleOrder; pearOrder]) shop.

(** The first seller delivers the first order. *)
Definition afterDelivery : DB :=
  run [(2, UpdateOrderStatus "olga" 0 Order.delivered None)] placed.
Definition deliveredOrder : Order.t := default appleOrder (orders afterDelivery !! 0).
Definition ratedShop : Store.t := default shop1 (stores afterDelivery !! "s1").

(** Alice then rates the delivered order with a 4. *)
Definition afterRating : DB := snd (rateOrder 3 "alice" 0 4 None afterDelivery).
Definition ratedShop' : Store.t := default shop1 (stores afterRating !! "s1").

(** Alice cancels the second order, the second seller sets it back to
    pending, and Alice cancels it again. *)
Definition cancelledOnce : DB := snd (cancelOrder 4 "alice" 1 None placed).
Definition reopened : DB :=
  snd (updateOrderStatus 5 "omar" 1 Order.pending None cancelledOnce).
Definition cancelledTwice : DB := snd (cancelOrder 6 "alice" 1 None reopened).

(** The requests of a day, in order. *)
Definition day : list (nat * Request) :=
  [(1, Checkout "alice" Order.delivery None None);
   (2, UpdateOrderStatus "olga" 0 Order.delivered None);
   (3, RateOrder "alice" 0 4 None);
   (4, CancelOrder "alice" 1 None);
   (5, GetCart "bob")].

(** A store with an average of 3.28 over seven ratings. *)
Definition shop4 : Store.t :=
  Store.mk "oda" true 0%Qc (Number_div (Number_of_Z 328) (Number_of_Z 100)) 7 0 0%Qc.

End Scenario.

(** ** More of the code: cart summary, product helpers, stock route *)

(** [cartSchema.methods.getSummary]. *)
Record CartSummary := mkCartSummary {
  cs_totalItems : Z;
  cs_totalAmount : Qc;
  cs_itemCount : nat
}.

Definition Cart_getSummary (c : Cart.t) : CartSummary :=
  mkCartSummary (Cart.totalItems c) (Cart.totalAmount c) (length (Cart.items c)).

(** One entry of [items] in the reply of [GET /summary]. *)
Record SummaryLine := mkSummaryLine {
  sl_product : ObjectId;
  sl_quantity : Z;
  sl_price : Qc;
  sl_total : Qc
}.

Record SummaryJson := mkSummaryJson {
  sj_totalItems : Z;
  sj_totalAmount : Qc;
  sj_itemCount : nat;
  sj_items : list SummaryLine
}.

(** [GET /summary] of routes/cart.js: it reads only, so the reply is all
    there is. *)
Definition getCartSummary (user : ObjectId) (db : DB) : SummaryJson :=
  match carts db !! user with
  | None => mkSummaryJson 0 0%Qc 0 []
  | Some cart =>
      let availableItems := List.filter (available db) (Cart.items cart) in
      let totalItems :=
        fold_left (fun total item => (total + Cart.quantity item)%Z) availableItems 0%Z in
      let totalAmount :=
        fold_left (fun total item => (total + Cart.price item * Qc_of_Z (Cart.quantity item))%Qc)
                  availableItems 0%Qc in
      mkSummaryJson totalItems totalAmount (length availableItems)
        (map (fun item =>
                mkSummaryLine (Cart.product item) (Cart.quantity item) (Cart.price item)
                  (Cart.price item * Qc_of_Z (Cart.quantity item))%Qc)
             availableItems)
  end.

(** Virtual [stockStatus] of models/Product.js.  The product record of this
    development does not carry [inventory.lowStockThreshold]; it is an
    argument here. *)
Inductive StockStatus := st_unlimited | st_out_of_stock | st_low_stock | st_in_stock.

Definition Product_stockStatus (lowStockThreshold : Z) (p : Product.t) : StockStatus :=
  if negb (Product.trackStock p) then st_unlimited
  else if (Product.stock p =? 0)%Z then st_out_of_stock
  else if (Product.stock p <=? lowStockThreshold)%Z then st_low_stock
  else st_in_stock.

(** [productSchema.methods.isAvailable]. *)
Definition Product_isAvailable (p : Product.t) : bool :=
  Product.status_eqb (Product.status p) Product.active
  && ((0 <? Product.stock p)%Z || negb (Product.trackStock p)).

(** Virtual [discountPercentage] (and the discount the pre-save hook
    stores), on [pricing.basePrice] and [pricing.sellingPrice]. *)
Definition Product_discountPercentage (basePrice sellingPrice : Qc) : Z :=
  if decide (0 < basePrice)%Qc
  then Math_round ((basePrice - sellingPrice) / basePrice * Qc_of_Z 100)%Qc
  else 0%Z.



(** ** Vocabulary for the further properties *)

(** The status of the last timeline entry. *)
Definition lastStatus (o : Order.t) : option Order.Status :=
  Order.ev_status <$> last (Order.timeline o).

(** What stays of an order whatever happens to it later: whose it is, its
    seller, its lines and delivery choice; its timeline only grows and a
    rating, once given, stays. *)
Definition orderExtends (o o' : Order.t) : Prop :=
  Order.customer o' = Order.customer o
  /\ Order.store o' = Order.store o
  /\ Order.items o' = Order.items o
  /\ Order.delivery_type o' = Order.delivery_type o
  /\ Order.delivery_address o' = Order.delivery_address o
  /\ Order.timeline o `prefix_of` Order.timeline o'
  /\ (Order.rated o = true ->
      Order.rating_value o' = Order.rating_value o
      /\ Order.rating_review o' = Order.rating_review o
      /\ Order.ratedAt o' = Order.ratedAt o).

(** One request's effect on the stored orders: each stays, at most saved
    again after [updateStatus] or, if it was not rated, after [addRating];
    the orders that come on top are new. *)
Definition ordersStep (now : nat) (before after : list Order.t) : Prop :=
  length before <= length after
  /\ (forall i o, before !! i = Some o ->
        after !! i = Some o
        \/ (exists s note,
              after !! i = Some (Order.preSave now false (Order.updateStatus now s note o)))
        \/ (exists v review,
              Order.rated o = false
              /\ after !! i = Some (Order.preSave now false (Order.addRating now v review o))))
  /\ (forall i o, before !! i = None -> after !! i = Some o ->
        Order.status o = Order.pending
        /\ Order.timeline o = [Order.mkEvent Order.pending now "Order placed"]).

(** ** The slug of a name

    [name.toLowerCase().replace(/[^a-z0-9]+/g, '-').replace(/(^-|-$)/g, '')]
    of the pre-save hooks of models/Product.js and models/Category.js.  A
    string is a sequence of code units below 256 here. *)

(** [toLowerCase] on one code unit: A-Z, and the capital letters of Latin-1
    (all of U+00C0..U+00DE but the multiplication sign). *)
Definition toLowerCase_char (c : ascii) : ascii :=
  let n := nat_of_ascii c in
  if (Nat.leb 65 n && Nat.leb n 90)
     || (Nat.leb 192 n && Nat.leb n 222 && negb (Nat.eqb n 215))
  then ascii_of_nat (n + 32) else c.

(** The class [a-z0-9]. *)
Definition isSlugChar (c : ascii) : bool :=
  let n := nat_of_ascii c in
  (Nat.leb 97 n && Nat.leb n 122) || (Nat.leb 48 n && Nat.leb n 57).

Definition isDash (c : ascii) : bool := Ascii.eqb c "-"%char.

(** [.replace(/[^a-z0-9]+/g, '-')]: every maximal run of other characters
    becomes one dash; [inRun] tells that the run's dash is already out. *)
Fixpoint dashRuns (inRun : bool) (l : list ascii) : list ascii :=
  match l with
  | [] => []
  | c :: l' =>
      if isSlugChar c then c :: dashRuns false l'
      else if inRun then dashRuns true l'
      else "-"%char :: dashRuns true l'
  end.

(** [.replace(/(^-|-$)/g, '')]: a dash at the start goes, and a dash at the
    end of what is left. *)
Definition trimDash (l : list ascii) : list ascii :=
  let l1 := match l with
            | c :: l' => if isDash c then l' else l
            | [] => []
            end in
  match last l1 with
  | Some c => if isDash c then removelast l1 else l1
  | None => l1
  end.

Definition slugify (name : string) : string :=
  String.string_of_list_ascii
    (trimDash (dashRuns false (map toLowerCase_char (String.list_ascii_of_string name)))).

(** Letters, digits and single dashes; [prevDash] tells that a dash comes
    just before. *)
Fixpoint sepOk (prevDash : bool) (l : list ascii) : bool :=
  match l with
  | [] => true
  | c :: l' =>
      if isSlugChar c then sepOk false l'
      else isDash c && negb prevDash && sepOk true l'
  end.

(** ** More of the small shop *)
Module Market.

(** The groups of Alice's cart, by seller. *)
Definition aliceGroups : list (string * list PItem) :=
  default [] (storeGroups (populate Scenario.shop (cartLines Scenario.shop "alice"))).

(** A product whose id has letters, all among a-f, and Dora's cart with two
    packs of it. *)
Definition coffee : Product.t :=
  Product.mk "s1" "coffee" (Qc_of_Z 9) "pack" "" 10 true Product.active.

Definition shop : DB :=
  mkDB (<["cafe" := coffee]> Scenario.catalogue) Scenario.sellers
       (<["dora" := Cart.mk [Cart.mkItem "cafe" 2 (Qc_of_Z 9)] 0]> ∅) [].

End Market.
(** ** Basic facts *)

Lemma Product_status_eqb_eq (a b : Product.Status) :
  Product.status_eqb a b = true <-> a = b.
Proof. destruct a, b; simpl; split; congruence. Qed.

Lemma Order_status_eqb_eq (a b : Order.Status) :
  Order.status_eqb a b = true <-> a = b.
Proof. destruct a, b; simpl; split; congruence. Qed.

Lemma orZero_id (x : Qc) : orZero x = x.
Proof. unfold orZero. case_decide; congruence. Qed.

(** ** The inner loop of checkout is a filter *)

Lemma validateStep_survives (acc : list Order.item) (sub : Qc) (ip : PItem) :
  validateStep (acc, sub) ip
  = if survives ip
    then (acc ++ [orderItem (fst ip) (snd ip)], (sub + lineTotal ip)%Qc)
    else (acc, sub).
Proof.
  destruct ip as [item product]. unfold validateStep, survives, lineTotal; simpl.
  destruct (Product.status_eqb (Product.status product) Product.active); simpl; [|done].
  by destruct (Product.trackStock product && (Product.stock product <? Cart.quantity item)%Z).
Qed.

Lemma validateItems_from (items : list PItem) (acc : list Order.item) (sub : Qc) :
  fold_left validateStep items (acc, sub)
  = (acc ++ map (fun ip => orderItem (fst ip) (snd ip)) (List.filter survives items),
     (sub + Qcsum (map lineTotal (List.filter survives items)))%Qc).
Proof.
  revert acc sub. induction items as [|ip items IH]; intros acc sub; cbn [fold_left List.filter].
  - simpl. rewrite app_nil_r. f_equal. ring.
  - rewrite validateStep_survives. destruct (survives ip); simpl.
    + rewrite IH, <- app_assoc. simpl. f_equal. ring.
    + apply IH.
Qed.

Lemma validateItems_filter (items : list PItem) :
  validateItems items
  = (map (fun ip => orderItem (fst ip) (snd ip)) (List.filter survives items),
     Qcsum (map lineTotal (List.filter survives items))).
Proof.
  unfold validateItems. rewrite validateItems_from. simpl. f_equal. ring.
Qed.

(** ** Stock maps *)

Lemma restoreStock_products (l : list Order.item) (db : DB) :
  restoreStock l db = set_products (adjustStock 1 l) db.
Proof.
  unfold restoreStock. revert db. induction l as [|it l IH]; intros db; simpl.
  - by destruct db.
  - rewrite IH. unfold set_products, Product_incStock, adjustStock; simpl.
    by replace (1 * Order.quantity it)%Z with (Order.quantity it)%Z by lia.
Qed.

Lemma adjustStock_stock (sign : Z) (l : list Order.item) (m : gmap string Product.t)
    (pid : ObjectId) :
  Product.stock <$> adjustStock sign l m !! pid
  = (fun z => (z + sign * orderedQty pid l)%Z) <$> (Product.stock <$> m !! pid).
Proof.
  revert m. induction l as [|it l IH]; intros m; simpl.
  - destruct (m !! pid); simpl; [f_equal; lia | done].
  - unfold adjustStock in *. simpl. rewrite IH. rewrite lookup_alter.
    destruct (String.eqb_spec (Order.product it) pid) as [->|Hne].
    + rewrite decide_True by done. destruct (m !! pid); simpl; [f_equal; lia | done].
    + rewrite decide_False by done. destruct (m !! pid); simpl; [f_equal; lia | done].
Qed.

(** ** One iteration of the checkout loop *)

(** The handler's constructor call leaves [orderNumber] out, so no document
    it builds passes the validation. *)
Lemma Order_insert_fresh (now : nat) (o : Order.t) (db : DB) :
  Order_insert now (Order.mkFresh None o) db = None.
Proof. reflexivity. Qed.

Lemma checkoutStore_outcome (now : nat) (user : ObjectId) (ty : Order.DeliveryType)
    (address notes : option string) (db : DB) (os : list Order.t) (g : string * list PItem) :
  checkoutStore now user ty address notes (db, os) g
  = if yieldsOrder db g then Thrown db else Next db os.
Proof.
  destruct g as [sid items]. unfold checkoutStore, yieldsOrder, sellerActive. cbn [fst snd].
  destruct (stores db !! sid) as [store|]; [|done].
  destruct (Store.isActive store); cbn [negb andb]; [|done].
  rewrite validateItems_filter, length_map.
  destruct (length (List.filter survives items) =? 0)%nat; cbn [negb]; [done|].
  by rewrite Order_insert_fresh.
Qed.

(** ** The whole loop over the seller groups *)

Lemma checkoutLoop_outcome (now : nat) (user : ObjectId) (ty : Order.DeliveryType)
    (address notes : option string) (groups : list (string * list PItem))
    (db : DB) (os : list Order.t) :
  checkoutLoop now user ty address notes groups (db, os)
  = if existsb (yieldsOrder db) groups then Thrown db else Next db os.
Proof.
  induction groups as [|g groups IH]; cbn [checkoutLoop existsb]; [done|].
  rewrite checkoutStore_outcome. destruct (yieldsOrder db g); cbn [orb]; [done|].
  apply IH.
Qed.

Lemma existsb_false_Forall {A : Type} (f : A -> bool) (l : list A) :
  existsb f l = false <-> Forall (fun x => f x = false) l.
Proof.
  induction l as [|x l IH]; simpl; [split; [constructor | done]|].
  rewrite orb_false_iff, IH. split.
  - intros [? ?]. by constructor.
  - intros H. by inversion H.
Qed.

Lemma existsb_true_Exists {A : Type} (f : A -> bool) (l : list A) :
  existsb f l = true <-> Exists (fun x => f x = true) l.
Proof.
  induction l as [|x l IH]; simpl.
  - split; [done | intros H; inversion H].
  - rewrite orb_true_iff, IH. split.
    + intros [?|?]; [by left | by right].
    + intros H. inversion H; [by left | by right].
Qed.

(** ** The checkout handler as a whole *)

(** What checkout replies; it never writes. *)
Lemma checkout_outcome (now : nat) (user : ObjectId) (ty : Order.DeliveryType)
    (address notes : option string) (db : DB) :
  checkout now user ty address notes db
  = (match cartLines db user with
     | [] => EmptyCart
     | _ :: _ =>
         match storeGroups (populate db (cartLines db user)) with
         | None => Reply 500 "Failed to create order"
         | Some groups =>
             if existsb (yieldsOrder db) groups then Reply 500 "Failed to create order"
             else NoValidItems
         end
     end, db).
Proof.
  unfold checkout, cartLines. destruct (carts db !! user) as [cart|]; [|done].
  destruct (Cart.items cart) as [|i l] eqn:Hi; [done|]. cbn [length Nat.eqb].
  destruct (storeGroups (populate db (i :: l))) as [groups|]; [|done].
  rewrite checkoutLoop_outcome. by destruct (existsb (yieldsOrder db) groups).
Qed.

Lemma checkout_db (now : nat) (user : ObjectId) (ty : Order.DeliveryType)
    (address notes : option string) (db : DB) :
  snd (checkout now user ty address notes db) = db.
Proof. by rewrite checkout_outcome. Qed.

Lemma checkout_no_orders (now : nat) (user : ObjectId) (ty : Order.DeliveryType)
    (address notes : option string) (db : DB) :
  ordersOf (fst (checkout now user ty address notes db)) = [].
Proof.
  rewrite checkout_outcome. cbn [fst]. destruct (cartLines db user); [done|].
  destruct (storeGroups _) as [groups|]; [|done]. by destruct (existsb _ _).
Qed.

Lemma omap_cons_option_list {A B : Type} (f : A -> option B) (x : A) (l : list A) :
  omap f (x :: l) = option_list (f x) ++ omap f l.
Proof. simpl. by destruct (f x). Qed.

Lemma elem_of_omap_In {A B : Type} (f : A -> option B) (l : list A) (y : B) :
  In y (omap f l) <-> exists x, In x l /\ f x = Some y.
Proof. rewrite <- list_elem_of_In, list_elem_of_omap. by setoid_rewrite list_elem_of_In. Qed.

(** ** Partition of the cart by seller *)

Lemma assoc_None {A : Type} (k : string) (g : list (string * A)) :
  assoc k g = None <-> ~ In k (map fst g).
Proof.
  induction g as [|[k' v] g IH]; simpl; [tauto|].
  destruct (String.eqb_spec k' k) as [->|Hne]; [split; [done|tauto]|].
  rewrite IH. tauto.
Qed.

Lemma In_assoc {A : Type} (k : string) (v : A) (g : list (string * A)) :
  List.NoDup (map fst g) -> In (k, v) g -> assoc k g = Some v.
Proof.
  induction g as [|[k' v'] g IH]; simpl; [done|].
  intros Hnd [Heq|Hin].
  - injection Heq as -> ->. by rewrite String.eqb_refl.
  - apply List.NoDup_cons_iff in Hnd as [Hk Hnd].
    destruct (String.eqb_spec k' k) as [->|Hne]; [|by apply IH].
    exfalso. apply Hk. change k with (fst (k, v)). by apply in_map.
Qed.

Lemma assoc_groupPush {A : Type} (k k' : string) (x : A) (g : list (string * list A)) :
  assoc k' (groupPush k x g)
  = if String.eqb k k' then Some (default [] (assoc k g) ++ [x]) else assoc k' g.
Proof.
  induction g as [|[k0 xs] g IH]; simpl.
  - by destruct (String.eqb k k').
  - destruct (String.eqb_spec k0 k) as [->|Hne]; simpl.
    + by destruct (String.eqb k k').
    + destruct (String.eqb_spec k0 k') as [->|Hne'].
      * destruct (String.eqb_spec k k') as [->|]; done.
      * apply IH.
Qed.

Lemma keys_groupPush {A : Type} (k : string) (x : A) (g : list (string * list A)) :
  map fst (groupPush k x g)
  = match assoc k g with
    | Some _ => map fst g
    | None => map fst g ++ [k]
    end.
Proof.
  induction g as [|[k0 xs] g IH]; simpl; [done|].
  destruct (String.eqb_spec k0 k) as [->|Hne]; simpl; [done|].
  rewrite IH. by destruct (assoc k g).
Qed.

Lemma NoDup_groupPush {A : Type} (k : string) (x : A) (g : list (string * list A)) :
  List.NoDup (map fst g) -> List.NoDup (map fst (groupPush k x g)).
Proof.
  intros Hnd. rewrite keys_groupPush. destruct (assoc k g) eqn:E; [done|].
  apply assoc_None in E. apply NoDup_ListNoDup. apply NoDup_app.
  repeat split.
  - by apply NoDup_ListNoDup.
  - intros y Hy Hy'. apply list_elem_of_In in Hy. apply list_elem_of_singleton in Hy'.
    by subst.
  - apply NoDup_singleton.
Qed.

Lemma storeGroups_resolved (db : DB) (l : list Cart.item)
    (g0 groups : list (string * list PItem)) :
  fold_left
    (fun acc ip =>
       match acc, snd ip with
       | Some g, Some p => Some (groupPush (Product.store p) (fst ip, p) g)
       | _, _ => None
       end)
    (populate db l) (Some g0) = Some groups ->
  groups = fold_left pushLine (resolved db l) g0
  /\ Forall (fun i => is_Some (products db !! Cart.product i)) l.
Proof.
  revert g0. induction l as [|i l IH]; intros g0.
  - simpl. intros [= <-]. by split.
  - unfold resolved. rewrite omap_cons_option_list. fold (resolved db l).
    unfold populate. cbn [map fold_left fst snd]. fold (populate db l).
    destruct (products db !! Cart.product i) as [p|] eqn:Hp; simpl.
    + intros H. apply IH in H as [-> Hall]. split; [done|].
      constructor; [by rewrite Hp | done].
    + intros H. exfalso. clear -H. induction (populate db l) as [|x xs IHx]; simpl in H; [done|].
      by apply IHx.
Qed.

Lemma NoDup_pushLines (l : list PItem) (g0 : list (string * list PItem)) :
  List.NoDup (map fst g0) -> List.NoDup (map fst (fold_left pushLine l g0)).
Proof.
  revert g0. induction l as [|ip l IH]; intros g0 Hnd; simpl; [done|].
  apply IH. by apply NoDup_groupPush.
Qed.

Lemma assoc_pushLines (sid : ObjectId) (l : list PItem) (g0 : list (string * list PItem)) :
  assoc sid (fold_left pushLine l g0)
  = match assoc sid g0 with
    | Some its => Some (its ++ linesOf sid l)
    | None => match linesOf sid l with
              | [] => None
              | its => Some its
              end
    end.
Proof.
  revert g0. induction l as [|ip l IH]; intros g0; simpl.
  - destruct (assoc sid g0); [by rewrite app_nil_r | done].
  - rewrite IH. unfold pushLine at 1. rewrite assoc_groupPush.
    destruct (String.eqb_spec (Product.store ip.2) sid) as [->|Hne].
    + destruct (assoc sid g0); simpl; [by rewrite <- app_assoc | done].
    + done.
Qed.

(** Every seller group of a cart holds exactly that seller's lines, and no
    seller has two groups. *)
Lemma storeGroups_sellerLines (db : DB) (l : list Cart.item)
    (groups : list (string * list PItem)) :
  storeGroups (populate db l) = Some groups ->
  List.NoDup (map fst groups)
  /\ Forall (fun i => is_Some (products db !! Cart.product i)) l
  /\ forall sid its, In (sid, its) groups -> its = linesOf sid (resolved db l) /\ its <> [].
Proof.
  intros H. apply storeGroups_resolved in H as [-> Hall].
  assert (Hnd : List.NoDup (map fst (fold_left pushLine (resolved db l) []))).
  { apply NoDup_pushLines. constructor. }
  repeat split; [done..| |].
  - apply In_assoc in H; [|done]. rewrite assoc_pushLines in H. simpl in H.
    destruct (linesOf sid (resolved db l)); congruence.
  - apply In_assoc in H; [|done]. rewrite assoc_pushLines in H. simpl in H.
    destruct (linesOf sid (resolved db l)); congruence.
Qed.

Lemma survives_false (ip : PItem) :
  survives ip = false
  <-> Product.status (snd ip) <> Product.active
      \/ (Product.trackStock (snd ip) = true
          /\ (Product.stock (snd ip) < Cart.quantity (fst ip))%Z).
Proof.
  unfold survives. rewrite andb_false_iff, negb_false_iff, andb_true_iff, Z.ltb_lt.
  rewrite <- not_true_iff_false, Product_status_eqb_eq. tauto.

Qed.

Lemma filter_survives_idem (items : list PItem) :
  List.filter survives (List.filter survives items) = List.filter survives items.
Proof.
  induction items as [|ip items IH]; simpl; [done|].
  destruct (survives ip) eqn:E; simpl; [rewrite E; by f_equal | done].
Qed.

Lemma In_resolved (db : DB) (l : list Cart.item) (ip : PItem) :
  In ip (resolved db l) -> products db !! Cart.product (fst ip) = Some (snd ip).
Proof.
  unfold resolved. rewrite elem_of_omap_In. intros (i & _ & H).
  destruct (products db !! Cart.product i) as [p|] eqn:Hp; [|done].
  injection H as <-. done.
Qed.

Lemma In_resolved_line (db : DB) (l : list Cart.item) (ip : PItem) :
  In ip (resolved db l) -> In (fst ip) l.
Proof.
  unfold resolved. rewrite elem_of_omap_In. intros (i & Hi & H).
  destruct (products db !! Cart.product i) as [p|]; [|done].
  injection H as <-. done.
Qed.

Lemma groupOrder_items (user : ObjectId) (ty : Order.DeliveryType)
    (address notes : option string) (db : DB) (g : string * list PItem) (o : Order.t) :
  groupOrder user ty address notes db g = Some o ->
  exists store,
    stores db !! fst g = Some store
    /\ Store.isActive store = true
    /\ List.filter survives (snd g) <> []
    /\ Order.store o = fst g
    /\ Order.customer o = user
    /\ Order.status o = Order.pending
    /\ Order.items o = map (fun ip => orderItem (fst ip) (snd ip)) (List.filter survives (snd g))
    /\ Order.deliveryFee o = feeFor ty (Store.deliveryFee store).
Proof.
  unfold groupOrder. destruct (stores db !! fst g) as [store|]; [|done].
  destruct (Store.isActive store) eqn:Hact; simpl; [|done].
  destruct (List.filter survives (snd g)) as [|x xs] eqn:Hf; simpl; [done|].
  intros [= <-]. exists store. rewrite validateItems_filter, Hf. simpl.
  repeat split; try done. destruct ty; simpl; [done | apply orZero_id].
Qed.

Lemma groupOrder_pricing (user : ObjectId) (ty : Order.DeliveryType)
    (address notes : option string) (db : DB) (g : string * list PItem) (o : Order.t) :
  groupOrder user ty address notes db g = Some o ->
  Order.subtotal o = Qcsum (map lineTotal (List.filter survives (snd g)))
  /\ Order.tax o = 0%Qc
  /\ Order.discount o = 0%Qc
  /\ Order.pricing_total o = (Order.subtotal o + Order.deliveryFee o)%Qc.
Proof.
  unfold groupOrder. destruct (stores db !! fst g) as [store|]; [|done].
  destruct (Store.isActive store && negb (length (List.filter survives (snd g)) =? 0)%nat);
    [|done].
  intros [= <-]. rewrite validateItems_filter. simpl. done.
Qed.

Lemma groupOrder_yields (user : ObjectId) (ty : Order.DeliveryType)
    (address notes : option string) (db : DB) (g : string * list PItem) :
  is_Some (groupOrder user ty address notes db g) <-> yieldsOrder db g = true.
Proof.
  unfold groupOrder, yieldsOrder, sellerActive.
  destruct (stores db !! fst g) as [store|]; [|split; [by intros [? ?] | done]].
  destruct (Store.isActive store && negb (length (List.filter survives (snd g)) =? 0)%nat).
  - split; [done | intros _; by eexists].
  - split; [by intros [? ?] | done].
Qed.

(** One iteration of the loop is: build the document of the group, hand it
    to [save()], and after a save that returns take the stock off, credit
    the seller and push the saved order. *)
Lemma checkoutStore_groupOrder (now : nat) (user : ObjectId) (ty : Order.DeliveryType)
    (address notes : option string) (db : DB) (os : list Order.t) (g : string * list PItem) :
  checkoutStore now user ty address notes (db, os) g
  = match groupOrder user ty address notes db g with
    | None => Next db os
    | Some o =>
        match Order_insert now (Order.mkFresh None o) db with
        | None => Thrown db
        | Some (saved, db1) =>
            Next (set_stores (alter (Store.inc_stats (Order.pricing_total o)) (fst g))
                             (decrementStock (Order.items o) db1))
                 (os ++ [saved])
        end
    end.
Proof.
  destruct g as [sid items]. unfold checkoutStore, groupOrder. cbn [fst snd].
  destruct (stores db !! sid) as [store|]; [|done].
  destruct (Store.isActive store); cbn [negb andb]; [|done].
  rewrite validateItems_filter. cbn [fst snd]. rewrite length_map.
  by destruct (length (List.filter survives items) =? 0)%nat.
Qed.

Lemma yieldsOrder_kept (db : DB) (g : string * list PItem) :
  yieldsOrder db (fst g, List.filter survives (snd g)) = yieldsOrder db g.
Proof. unfold yieldsOrder. cbn [fst snd]. by rewrite filter_survives_idem. Qed.

Lemma existsb_keptGroups (db : DB) (groups : list (string * list PItem)) :
  existsb (yieldsOrder db) (keptGroups db groups) = existsb (yieldsOrder db) groups.
Proof.
  unfold keptGroups. induction groups as [|g groups IH]; [done|]. cbn [List.filter existsb].
  destruct (yieldsOrder db g) eqn:E; cbn [map existsb].
  - by rewrite yieldsOrder_kept, E.
  - apply IH.
Qed.

(** C2.  In the loop over the seller groups of checkout: the iteration of
    a group whose seller is missing or inactive ends normally with the
    database and the orders as they were; a line whose product is not
    active, or whose tracked stock is below the requested quantity, is
    dropped without a trace (the iteration behaves as if the line were not
    in the group); and the iteration of a group with no surviving line ends
    normally with nothing changed.  So for the loop as a whole: it ends as
    it would without the skipped groups and the dropped lines, and when
    every group is skipped it ends normally with no order and nothing
    changed. *)
Theorem checkout_group_filtering (now : nat) (user : ObjectId) (ty : Order.DeliveryType)
    (address notes : option string) (db : DB) (os : list Order.t)
    (storeId : ObjectId) (items : list PItem) :
  let step := checkoutStore now user ty address notes (db, os) in
  (sellerActive db storeId = false -> step (storeId, items) = Next db os)
  /\ (forall ip, survives ip = false
                 <-> Product.status (snd ip) <> Product.active
                     \/ (Product.trackStock (snd ip) = true
                         /\ (Product.stock (snd ip) < Cart.quantity (fst ip))%Z))
  /\ step (storeId, items) = step (storeId, List.filter survives items)
  /\ (List.filter survives items = [] -> step (storeId, items) = Next db os)
  /\ (forall groups,
        checkoutLoop now user ty address notes groups (db, os)
        = checkoutLoop now user ty address notes (keptGroups db groups) (db, os))
  /\ (forall groups,
        Forall (fun g => yieldsOrder db g = false) groups ->
        checkoutLoop now user ty address notes groups (db, os) = Next db os).
Proof.
  cbv zeta. rewrite !checkoutStore_outcome.
  split; [|split; [|split; [|split; [|split]]]].
  - intros H. unfold yieldsOrder. cbn [fst]. by rewrite H.
  - apply survives_false.
  - by rewrite <- (yieldsOrder_kept db (storeId, items)).
  - intros H. unfold yieldsOrder. cbn [snd]. rewrite H. cbn. by rewrite andb_false_r.
  - intros groups. by rewrite !checkoutLoop_outcome, existsb_keptGroups.
  - intros groups H. rewrite checkoutLoop_outcome.
    apply existsb_false_Forall in H. by rewrite H.
Qed.

(** C3.  Checkout replies [NoValidItems] exactly when it reaches the loop
    over the seller groups (the cart has a line and every line's product
    resolves) and no seller group produces an order; the database is then
    what it was: the cart keeps its lines and no stock has moved. *)
Theorem checkout_NoValidItems (now : nat) (user : ObjectId) (ty : Order.DeliveryType)
    (address notes : option string) (db : DB) :
  (fst (checkout now user ty address notes db) = NoValidItems
   <-> cartLines db user <> []
       /\ exists groups,
            storeGroups (populate db (cartLines db user)) = Some groups
            /\ Forall (fun g => yieldsOrder db g = false) groups)
  /\ (fst (checkout now user ty address notes db) = NoValidItems ->
      snd (checkout now user ty address notes db) = db
      /\ cartLines (snd (checkout now user ty address notes db)) user = cartLines db user
      /\ forall pid, stockOf (snd (checkout now user ty address notes db)) pid = stockOf db pid).
Proof.
  rewrite checkout_outcome. cbn [fst snd]. split; [|done].
  destruct (cartLines db user) as [|i l] eqn:Hl.
  { split; [done | by intros [? _]]. }
  destruct (storeGroups (populate db (i :: l))) as [groups|] eqn:Hg.
  2:{ split; [done | by intros (_ & groups & ? & _)]. }
  destruct (existsb (yieldsOrder db) groups) eqn:Hex.
  - split; [done|]. intros (_ & groups' & [= <-] & Hall).
    apply existsb_false_Forall in Hall. congruence.
  - split; [|done]. intros _. split; [done|]. exists groups. split; [done|].
    by apply existsb_false_Forall.
Qed.

(** C4 fails on the code.  In the scenario Alice's cart holds apples of an
    active seller, in stock: a seller group that is due an order.  The
    handler builds the order and hands it to [save()], which throws: the
    reply is 500 and the cart keeps its three lines.  It is so for every
    cart with a group that is due an order, and no checkout ever replies
    with orders. *)
Theorem checkout_keeps_cart_where_order_is_due :
  yieldsOrder Scenario.shop ("s1", Scenario.appleLines) = true
  /\ checkout 1 "alice" Order.delivery None None Scenario.shop
     = (Reply 500 "Failed to create order", Scenario.shop)
  /\ length (cartLines Scenario.shop "alice") = 3
  /\ (forall now user ty address notes db groups,
        cartLines db user <> [] ->
        storeGroups (populate db (cartLines db user)) = Some groups ->
        Exists (fun g => yieldsOrder db g = true) groups ->
        checkout now user ty address notes db = (Reply 500 "Failed to create order", db))
  /\ (forall now user ty address notes db code os,
        fst (checkout now user ty address notes db) <> OrdersJson code os).
Proof.
  split; [by vm_compute|]. split; [by vm_compute|]. split; [by vm_compute|]. split.
  - intros now user ty address notes db groups Hne Hg Hex. rewrite checkout_outcome, Hg.
    apply existsb_true_Exists in Hex. rewrite Hex. by destruct (cartLines db user).
  - intros now user ty address notes db code os. rewrite checkout_outcome. cbn [fst].
    destruct (cartLines db user); [done|]. destruct (storeGroups _) as [groups|]; [|done].
    by destruct (existsb _ _).
Qed.

(** ** Pricing of the order documents checkout builds *)

(** C5 fails on the code.  The order document that the handler builds for a
    seller group is priced as the claim says: its items are the surviving
    lines, its subtotal is the sum of quantity times the price stored in the
    cart line, its delivery fee is 0 for pickup and the seller's fee for
    delivery, and its total is subtotal plus delivery fee.  The iteration
    hands this document to [save()] and would go on from the saved order;
    but the save throws, so checkout produces no order: for Alice's
    apples (three at the cart price 10, catalogue price 12, delivery fee 7)
    the document has subtotal 30 and total 37, the reply is 500 and no order
    is stored. *)
Theorem checkout_builds_priced_order_and_throws :
  (forall user ty address notes db g o,
      groupOrder user ty address notes db g = Some o ->
      exists store,
        stores db !! fst g = Some store
        /\ Order.items o
           = map (fun ip => orderItem (fst ip) (snd ip)) (List.filter survives (snd g))
        /\ Order.subtotal o
           = Qcsum (map (fun ip => (Cart.price (fst ip) * Qc_of_Z (Cart.quantity (fst ip)))%Qc)
                        (List.filter survives (snd g)))
        /\ Order.deliveryFee o
           = match ty with
             | Order.pickup => 0%Qc
             | Order.delivery => Store.deliveryFee store
             end
        /\ Order.pricing_total o = (Order.subtotal o + Order.deliveryFee o)%Qc
        /\ (forall now os,
              checkoutStore now user ty address notes (db, os) g
              = match Order_insert now (Order.mkFresh None o) db with
                | None => Thrown db
                | Some (saved, db1) =>
                    Next (set_stores (alter (Store.inc_stats (Order.pricing_total o)) (fst g))
                                     (decrementStock (Order.items o) db1))
                         (os ++ [saved])
                end)
        /\ (forall now, Order_insert now (Order.mkFresh None o) db = None)
        /\ forall now os, checkoutStore now user ty address notes (db, os) g = Thrown db)
  /\ (exists o,
        groupOrder "alice" Order.delivery None None Scenario.shop ("s1", Scenario.appleLines)
        = Some o
        /\ Product.sellingPrice Scenario.apple = Q2Qc 12
        /\ Order.subtotal o = Q2Qc 30
        /\ Order.deliveryFee o = Q2Qc 7
        /\ Order.pricing_total o = Q2Qc 37)
  /\ checkout 1 "alice" Order.delivery None None Scenario.shop
     = (Reply 500 "Failed to create order", Scenario.shop)
  /\ orders Scenario.shop = [].
Proof.
  split; [|split; [|split; [by vm_compute | done]]].
  - intros user ty address notes db g o Hg.
    pose proof (groupOrder_pricing _ _ _ _ _ _ _ Hg) as (Hsub & _ & _ & Htot).
    pose proof (proj1 (groupOrder_yields user ty address notes db g)) as Hy.
    destruct (groupOrder_items _ _ _ _ _ _ _ Hg) as (store & Hs & _ & _ & _ & _ & _ & Hit & Hfee).
    exists store. split; [done|]. split; [done|]. split; [done|].
    split; [by destruct ty|]. split; [done|]. split; [|split].
    + intros now os. by rewrite checkoutStore_groupOrder, Hg.
    + intros now. apply Order_insert_fresh.
    + intros now os. rewrite checkoutStore_outcome, Hy; [done|]. by rewrite Hg.
  - eexists. split; [by vm_compute|].
    repeat split; apply Qc_is_canon; by vm_compute.
Qed.

(** ** The pricing equation is kept by every save *)

Lemma calculateTotal_consistent (o : Order.t) : pricingConsistent (Order.calculateTotal o).
Proof. reflexivity. Qed.

Lemma preSave_consistent (now : nat) (isNew : bool) (o : Order.t) :
  pricingConsistent (Order.preSave now isNew o).
Proof. apply calculateTotal_consistent. Qed.

Lemma create_consistent (customer store : ObjectId) (items : list Order.item)
    (ty : Order.DeliveryType) (address notes : option string) (fee subtotal : Qc) :
  pricingConsistent
    (Order.create customer store items ty address fee subtotal (subtotal + fee)%Qc notes).
Proof. unfold pricingConsistent. simpl. ring. Qed.

Lemma updateStatus_consistent (now : nat) (s : Order.Status) (note : string) (o : Order.t) :
  pricingConsistent o -> pricingConsistent (Order.updateStatus now s note o).
Proof. done. Qed.

Lemma addRating_consistent (now : nat) (v : Z) (review : string) (o : Order.t) :
  pricingConsistent o -> pricingConsistent (Order.addRating now v review o).
Proof. done. Qed.

Lemma Order_save_consistent (now : nat) (id : nat) (o : Order.t) (db : DB) :
  Forall pricingConsistent (orders db) ->
  Forall pricingConsistent (orders (Order_save now id o db)).
Proof.
  intros H. unfold Order_save. simpl.
  destruct (decide (id < length (orders db))) as [Hlt|Hge].
  - apply Forall_insert; [done | apply preSave_consistent].
  - rewrite list_insert_ge by lia. done.
Qed.

Lemma restoreStock_orders (l : list Order.item) (db : DB) :
  orders (restoreStock l db) = orders db.
Proof. by rewrite restoreStock_products. Qed.

Lemma checkout_consistent (now : nat) (user : ObjectId) (ty : Order.DeliveryType)
    (address notes : option string) (db : DB) :
  Forall pricingConsistent (orders db) ->
  Forall pricingConsistent (orders (snd (checkout now user ty address notes db))).
Proof. by rewrite checkout_db. Qed.

Lemma handle_consistent (now : nat) (r : Request) (db : DB) :
  Forall pricingConsistent (orders db) ->
  Forall pricingConsistent (orders (snd (handle now r db))).
Proof.
  intros H. destruct r; simpl.
  - unfold getCart. destruct (carts db !! user); simpl;
      repeat match goal with |- context [if ?b then _ else _] => destruct b end; done.
  - unfold addToCart.
    repeat match goal with
           | |- context [if ?b then _ else _] => destruct b
           | |- context [match ?x with _ => _ end] => destruct x
           end; done.
  - unfold updateCart.
    repeat match goal with
           | |- context [if ?b then _ else _] => destruct b
           | |- context [match ?x with _ => _ end] => destruct x
           end; done.
  - unfold removeFromCart. by destruct (carts db !! user).
  - unfold clearCart. by destruct (carts db !! user).
  - by apply checkout_consistent.
  - unfold updateOrderStatus. destruct (Store_findByOwner user db) as [[sid s]|]; [|done].
    destruct (Order.status_eqb status Order.refunded); [done|].
    destruct (orders db !! id); [|done].
    destruct (negb _); [done|]. by apply Order_save_consistent.
  - unfold cancelOrder. destruct (orders db !! id) as [o|]; [|done].
    destruct (negb _); [done|]. destruct (Order.final _); [done|].
    cbn [snd]. rewrite restoreStock_orders. by apply Order_save_consistent.
  - unfold rateOrder. destruct (negb _); [done|].
    destruct (orders db !! id) as [o|]; [|done].
    destruct (negb _); [done|]. destruct (negb _); [done|].
    destruct (Order.rated o); [done|]. cbn [snd].
    destruct (stores _ !! _); simpl; by apply Order_save_consistent.
Qed.

(** C6.  In every state a run of requests reaches from a database whose
    orders satisfy it, every order has
    total = subtotal + deliveryFee + tax - discount: each save recomputes
    the total from the components, and the constructor call of checkout and
    the methods that touch an order between two saves keep the equation. *)
Theorem pricing_total_invariant (rs : list (nat * Request)) (db : DB) :
  Forall pricingConsistent (orders db) ->
  Forall pricingConsistent (orders (run rs db))
  /\ (forall customer store items ty address notes fee subtotal,
        pricingConsistent
          (Order.create customer store items ty address fee subtotal (subtotal + fee)%Qc notes))
  /\ (forall now isNew o, pricingConsistent (Order.preSave now isNew o))
  /\ (forall now s note o,
        pricingConsistent o -> pricingConsistent (Order.updateStatus now s note o))
  /\ (forall now v review o,
        pricingConsistent o -> pricingConsistent (Order.addRating now v review o)).
Proof.
  intros H. split; [|split; [|split; [|split]]].
  - unfold run. revert db H. induction rs as [|[now r] rs IH]; intros db H; simpl; [done|].
    apply IH. by apply handle_consistent.
  - intros. apply create_consistent.
  - apply preSave_consistent.
  - apply updateStatus_consistent.
  - apply addRating_consistent.
Qed.

(** ** Cancellation *)

Lemma final_iff (s : Order.Status) :
  Order.final s = true
  <-> s = Order.delivered \/ s = Order.cancelled \/ s = Order.refunded.
Proof.
  destruct s; simpl; split; intros H; auto; try discriminate;
    destruct H as [H|[H|H]]; discriminate.
Qed.

Lemma cancelOrder_refused (now : nat) (user : ObjectId) (id : nat) (reason : option string)
    (db : DB) (order : Order.t) :
  orders db !! id = Some order ->
  Order.customer order = user ->
  Order.final (Order.status order) = true ->
  cancelOrder now user id reason db = (NotCancellable, db).
Proof.
  intros Ho Hu Hf. unfold cancelOrder. rewrite Ho, Hu, String.eqb_refl, Hf. done.
Qed.

Lemma cancelOrder_done (now : nat) (user : ObjectId) (id : nat) (reason : option string)
    (db : DB) (order : Order.t) :
  orders db !! id = Some order ->
  Order.customer order = user ->
  Order.final (Order.status order) = false ->
  exists o' db',
    cancelOrder now user id reason db = (OrdersJson 200 [o'], db')
    /\ Order.status o' = Order.cancelled
    /\ Order.customer o' = user
    /\ Order.items o' = Order.items order
    /\ orders db' = <[id := o']> (orders db)
    /\ products db' = adjustStock 1 (Order.items order) (products db)
    /\ stores db' = stores db
    /\ carts db' = carts db.
Proof.
  intros Ho Hu Hf. unfold cancelOrder. rewrite Ho, Hu, String.eqb_refl, Hf. simpl.
  eexists _, _. split; [reflexivity|]. rewrite restoreStock_products. done.
Qed.

Lemma stockOf_adjust (sign : Z) (l : list Order.item) (db db' : DB) (pid : ObjectId) :
  products db' = adjustStock sign l (products db) ->
  stockOf db' pid = (fun z => (z + sign * orderedQty pid l)%Z) <$> stockOf db pid.
Proof. intros H. unfold stockOf. rewrite H. apply adjustStock_stock. Qed.


(** C7, as the code has it.  For an order that exists and belongs to the
    caller, cancel replies [NotCancellable], changing nothing, exactly when
    the status is delivered, cancelled or refunded; otherwise the order
    becomes cancelled, the stock of every product grows by the units the
    order holds of it, and cancelling again on the database it leaves is
    refused and restores nothing. *)
Theorem cancel_restores_stock (now : nat) (user : ObjectId) (id : nat)
    (reason : option string) (db : DB) (order : Order.t) :
  orders db !! id = Some order ->
  Order.customer order = user ->
  let r := cancelOrder now user id reason db in
  (fst r = NotCancellable
   <-> Order.status order = Order.delivered
       \/ Order.status order = Order.cancelled
       \/ Order.status order = Order.refunded)
  /\ (fst r = NotCancellable -> snd r = db)
  /\ (fst r <> NotCancellable ->
      Order.status <$> orders (snd r) !! id = Some Order.cancelled
      /\ (forall pid,
             stockOf (snd r) pid
             = (fun z => (z + orderedQty pid (Order.items order))%Z) <$> stockOf db pid)
      /\ forall now' reason',
           cancelOrder now' user id reason' (snd r) = (NotCancellable, snd r)).
Proof.
  intros Ho Hu r.
  destruct (Order.final (Order.status order)) eqn:Hf.
  - pose proof (cancelOrder_refused now user id reason db order Ho Hu Hf) as E.
    subst r. rewrite E. simpl. split; [|done].
    split; [intros _; by apply final_iff | done].
  - destruct (cancelOrder_done now user id reason db order Ho Hu Hf)
      as (o' & db' & E & Hst & Hcu & Hit & Hos & Hp & _).
    subst r. rewrite E. simpl. split; [|split; [done|]].
    + split; [done|]. intros H. apply final_iff in H. congruence.
    + intros _. assert (Hlt : id < length (orders db)) by by eapply lookup_lt_Some.
      assert (Ho' : orders db' !! id = Some o').
      { rewrite Hos. by apply list_lookup_insert_eq. }
      split; [by rewrite Ho', <- Hst|]. split.
      * intros pid. rewrite (stockOf_adjust 1 (Order.items order) db db' pid Hp).
        destruct (stockOf db pid); simpl; [f_equal; lia | done].
      * intros now' reason'. apply (cancelOrder_refused _ _ _ _ _ o' Ho' Hcu).
        by rewrite Hst.
Qed.

(** ** Rating *)

Lemma rateOrder_not_delivered (now : nat) (user : ObjectId) (id : nat) (rating : Z)
    (review : option string) (db : DB) (order : Order.t) :
  orders db !! id = Some order ->
  Order.customer order = user ->
  (1 <= rating <= 5)%Z ->
  Order.status order <> Order.delivered ->
  rateOrder now user id rating review db = (NotDeliveredYet, db).
Proof.
  intros Ho Hu Hr Hs. unfold rateOrder.
  replace ((1 <=? rating)%Z && (rating <=? 5)%Z) with true
    by (symmetry; apply andb_true_iff; split; apply Z.leb_le; lia).
  simpl. rewrite Ho, Hu, String.eqb_refl. simpl.
  destruct (Order.status_eqb (Order.status order) Order.delivered) eqn:E; [|done].
  by apply Order_status_eqb_eq in E.
Qed.

Lemma rateOrder_already_rated (now : nat) (user : ObjectId) (id : nat) (rating : Z)
    (review : option string) (db : DB) (order : Order.t) (v : Z) :
  orders db !! id = Some order ->
  Order.customer order = user ->
  (1 <= rating <= 5)%Z ->
  Order.status order = Order.delivered ->
  Order.rating_value order = Some v ->
  v <> 0%Z ->
  rateOrder now user id rating review db = (AlreadyRated, db).
Proof.
  intros Ho Hu Hr Hs Hv Hv0. unfold rateOrder.
  replace ((1 <=? rating)%Z && (rating <=? 5)%Z) with true
    by (symmetry; apply andb_true_iff; split; apply Z.leb_le; lia).
  simpl. rewrite Ho, Hu, String.eqb_refl, Hs. simpl.
  unfold Order.rated. rewrite Hv.
  by replace (v =? 0)%Z with false by (symmetry; by apply Z.eqb_neq).
Qed.

Lemma rateOrder_done (now : nat) (user : ObjectId) (id : nat) (rating : Z)
    (review : option string) (db : DB) (order : Order.t) (store : Store.t) :
  orders db !! id = Some order ->
  Order.customer order = user ->
  (1 <= rating <= 5)%Z ->
  Order.status order = Order.delivered ->
  Order.rating_value order = None ->
  stores db !! Order.store order = Some store ->
  exists db',
    rateOrder now user id rating review db = (Reply 200 "Rating added successfully", db')
    /\ orders db'
       = <[id := Order.preSave now false (Order.addRating now rating (default "" review) order)]>
           (orders db)
    /\ stores db'
       = <[Order.store order :=
             Store.set_rating
               (round2
                  (Number_div
                     (Number_add
                        (Number_mul (Store.rating_average store)
                                    (Number_of_Z (Store.rating_count store)))
                        (Number_of_Z rating))
                     (Number_of_Z (Store.rating_count store + 1))))
               (Store.rating_count store + 1) store]> (stores db)
    /\ products db' = products db
    /\ carts db' = carts db.
Proof.
  intros Ho Hu Hr Hs Hv Hst. unfold rateOrder.
  replace ((1 <=? rating)%Z && (rating <=? 5)%Z) with true
    by (symmetry; apply andb_true_iff; split; apply Z.leb_le; lia).
  cbn [negb]. rewrite Ho, Hu, String.eqb_refl, Hs. cbn [negb Order.status_eqb].
  unfold Order.rated. rewrite Hv.
  cbn -[Number_div Number_add Number_mul Number_of_Z round2]. rewrite Hst.
  eexists. split; [reflexivity|].
  cbn -[Number_div Number_add Number_mul Number_of_Z round2].
  repeat split.
  apply map_eq. intros sid. rewrite lookup_alter, lookup_insert.
  case_decide; [subst; by rewrite Hst | done].
Qed.

(** C8, as the code has it.  For an order that exists and belongs to the
    caller and a rating between 1 and 5: when the order is not delivered the
    reply is [NotDeliveredYet], when it is delivered and already carries a
    rating the reply is [AlreadyRated], and in both cases nothing changes
    (the seller's average and count included); otherwise the order takes
    the rating, the seller's count becomes the old count plus one, the
    seller's average becomes
    [Math.round(((oldAvg * oldCount) + value) / (oldCount + 1) * 100) / 100]
    as double arithmetic evaluates it, and a second rating of the order is
    refused with [AlreadyRated]. *)
Theorem rate_order_aggregate (now : nat) (user : ObjectId) (id : nat) (rating : Z)
    (review : option string) (db : DB) (order : Order.t) :
  orders db !! id = Some order ->
  Order.customer order = user ->
  (1 <= rating <= 5)%Z ->
  let r := rateOrder now user id rating review db in
  (Order.status order <> Order.delivered -> r = (NotDeliveredYet, db))
  /\ (Order.status order = Order.delivered ->
      (exists v, Order.rating_value order = Some v /\ v <> 0%Z) ->
      r = (AlreadyRated, db))
  /\ (Order.status order = Order.delivered ->
      Order.rating_value order = None ->
      forall store, stores db !! Order.store order = Some store ->
      fst r = Reply 200 "Rating added successfully"
      /\ Order.rating_value <$> orders (snd r) !! id = Some (Some rating)
      /\ (exists store',
            let mean :=
              Number_div
                (Number_add
                   (Number_mul (Store.rating_average store)
                               (Number_of_Z (Store.rating_count store)))
                   (Number_of_Z rating))
                (Number_of_Z (Store.rating_count store + 1)) in
            stores (snd r) !! Order.store order = Some store'
            /\ Store.rating_count store' = (Store.rating_count store + 1)%Z
            /\ Store.rating_average store'
               = Number_div (Math_round_double (Number_mul mean (Number_of_Z 100)))
                            (Number_of_Z 100)
            /\ Store.owner store' = Store.owner store
            /\ Store.isActive store' = Store.isActive store
            /\ Store.totalOrders store' = Store.totalOrders store
            /\ Store.totalRevenue store' = Store.totalRevenue store)
      /\ (forall sid, sid <> Order.store order -> stores (snd r) !! sid = stores db !! sid)
      /\ products (snd r) = products db
      /\ forall now' rating' review',
           (1 <= rating' <= 5)%Z ->
           rateOrder now' user id rating' review' (snd r) = (AlreadyRated, snd r)).
Proof.
  intros Ho Hu Hr r. split; [|split].
  - intros Hs. by eapply rateOrder_not_delivered.
  - intros Hs (v & Hv & Hv0). by eapply rateOrder_already_rated.
  - intros Hs Hv store Hst.
    destruct (rateOrder_done now user id rating review db order store Ho Hu Hr Hs Hv Hst)
      as (db' & E & Hos & Hss & Hp & _).
    subst r. rewrite E. cbn [fst snd].
    assert (Hlt : id < length (orders db)) by by eapply lookup_lt_Some.
    assert (Ho' : orders db' !! id
                  = Some (Order.preSave now false
                            (Order.addRating now rating (default "" review) order))).
    { rewrite Hos. by apply list_lookup_insert_eq. }
    split; [done|]. split; [by rewrite Ho'|]. split; [|split; [|split; [done|]]].
    + eexists. rewrite Hss, lookup_insert_eq. cbn zeta. done.
    + intros sid Hne. rewrite Hss. by rewrite lookup_insert_ne.
    + intros now' rating' review' Hr'.
      eapply (rateOrder_already_rated _ _ _ _ _ _ _ rating); try done. lia.
Qed.

(** ** Removing a cart line *)

Lemma filter_all {A : Type} (f : A -> bool) (l : list A) :
  (forall x, In x l -> f x = true) -> List.filter f l = l.
Proof.
  induction l as [|x l IH]; simpl; [done|]. intros H.
  rewrite (H x) by by left. f_equal. apply IH. intros y Hy. apply H. by right.
Qed.

Lemma filter_idem {A : Type} (f : A -> bool) (l : list A) :
  List.filter f (List.filter f l) = List.filter f l.
Proof.
  apply filter_all. intros x Hx. by apply filter_In in Hx as [_ ?].
Qed.

Lemma filter_length_eq {A : Type} (f : A -> bool) (l : list A) :
  length (List.filter f l) = length l -> List.filter f l = l.
Proof.
  induction l as [|x l IH]; simpl; [done|].
  destruct (f x); simpl; intros H.
  - f_equal. apply IH. lia.
  - pose proof (List.filter_length_le f l). lia.
Qed.

(** C9.  Removing a product that has no line in the cart goes through
    without an error and leaves the lines of the stored cart, and the rest
    of the database but the cart's time stamp, as they were; and removing
    the same product twice leaves the lines the first removal left. *)
Theorem remove_absent_line_noop (now : nat) (user productId : ObjectId) (db : DB)
    (cart : Cart.t) :
  carts db !! user = Some cart ->
  (forall i, In i (Cart.items cart) -> Cart.product i <> productId) ->
  let r := removeFromCart now user productId db in
  Cart.items (Cart.removeItem now productId cart) = Cart.items cart
  /\ fst r = CartJson 200 (Cart.mk (Cart.items cart) now)
  /\ carts (snd r) !! user = Some (Cart.mk (Cart.items cart) now)
  /\ cartLines (snd r) user = cartLines db user
  /\ (forall other, other <> user -> carts (snd r) !! other = carts db !! other)
  /\ products (snd r) = products db
  /\ stores (snd r) = stores db
  /\ orders (snd r) = orders db
  /\ forall now' c,
       Cart.items (Cart.removeItem now' productId (Cart.removeItem now productId c))
       = Cart.items (Cart.removeItem now productId c).
Proof.
  intros Hc Habs r.
  assert (Hsame : List.filter (fun i => negb (Cart.is_product productId i)) (Cart.items cart)
                  = Cart.items cart).
  { apply filter_all. intros i Hi. apply negb_true_iff. unfold Cart.is_product.
    apply String.eqb_neq. by apply Habs. }
  subst r. unfold removeFromCart, cartLines. rewrite Hc.
  unfold Cart_save, Cart.preSave, Cart.removeItem. simpl. rewrite Hsame.
  rewrite lookup_insert_eq. do 4 (split; [done|]). split; [|do 3 (split; [done|])].
  - intros other Hne. by rewrite lookup_insert_ne.
  - intros now' c. apply filter_idem.
Qed.

(** ** Reading the cart *)

Lemma available_false (db : DB) (i : Cart.item) :
  available db i = false
  <-> products db !! Cart.product i = None
      \/ exists p, products db !! Cart.product i = Some p
                   /\ (Product.status p <> Product.active
                       \/ (Product.trackStock p = true
                           /\ (Product.stock p < Cart.quantity i)%Z)).
Proof.
  unfold available. destruct (products db !! Cart.product i) as [p|]; [|by split; [left|]].
  rewrite andb_false_iff, orb_false_iff, negb_false_iff, Z.leb_gt.
  rewrite <- not_true_iff_false, Product_status_eqb_eq. split.
  - intros H. right. exists p. split; [done|]. tauto.
  - intros [|(p' & [= <-] & H)]; [done | tauto].
Qed.

Lemma getCart_lines (now : nat) (user : ObjectId) (db : DB) :
  cartLines (snd (getCart now user db)) user = List.filter (available db) (cartLines db user)
  /\ products (snd (getCart now user db)) = products db
  /\ stores (snd (getCart now user db)) = stores db
  /\ orders (snd (getCart now user db)) = orders db.
Proof.
  unfold getCart, cartLines. destruct (carts db !! user) as [cart|] eqn:Hc.
  - destruct (negb (length (List.filter (available db) (Cart.items cart))
                    =? length (Cart.items cart))%nat) eqn:E; simpl.
    + by rewrite lookup_insert_eq.
    + rewrite Hc. apply negb_false_iff, Nat.eqb_eq in E.
      by rewrite (filter_length_eq _ _ E).
  - simpl. by rewrite lookup_insert_eq.
Qed.


(** ** Stock along a run *)


Lemma orderedQty_nonneg (pid : ObjectId) (l : list Order.item) :
  Forall (fun it => (1 <= Order.quantity it)%Z) l -> (0 <= orderedQty pid l)%Z.
Proof.
  induction 1 as [|it l Hit _ IH]; simpl; [lia|].
  destruct (String.eqb (Order.product it) pid); lia.
Qed.


(** *** Cart lines *)

Lemma map_product_bump (pid : ObjectId) (q : Z) (pr : Qc) (l : list Cart.item) :
  map Cart.product (Cart.bump pid q pr l) = map Cart.product l.
Proof.
  induction l as [|i l IH]; simpl; [done|].
  destruct (Cart.is_product pid i); simpl; [done | by rewrite IH].
Qed.

Lemma Forall_quantity_bump (pid : ObjectId) (q : Z) (pr : Qc) (l : list Cart.item) :
  (1 <= q)%Z ->
  Forall (fun i => (1 <= Cart.quantity i)%Z) l ->
  Forall (fun i => (1 <= Cart.quantity i)%Z) (Cart.bump pid q pr l).
Proof.
  intros Hq. induction 1 as [|i l Hi Hl IH]; simpl; [done|].
  destruct (Cart.is_product pid i); constructor; simpl; try done. lia.
Qed.

Lemma map_product_set_quantity (pid : ObjectId) (q : Z) (l : list Cart.item) :
  map Cart.product (Cart.set_quantity pid q l) = map Cart.product l.
Proof.
  induction l as [|i l IH]; simpl; [done|].
  destruct (Cart.is_product pid i); simpl; [done | by rewrite IH].
Qed.

Lemma Forall_quantity_set (pid : ObjectId) (q : Z) (l : list Cart.item) :
  (1 <= q)%Z ->
  Forall (fun i => (1 <= Cart.quantity i)%Z) l ->
  Forall (fun i => (1 <= Cart.quantity i)%Z) (Cart.set_quantity pid q l).
Proof.
  intros Hq. induction 1 as [|i l Hi Hl IH]; simpl; [done|].
  destruct (Cart.is_product pid i); constructor; simpl; done.
Qed.

Lemma find_product_None (pid : ObjectId) (l : list Cart.item) :
  List.find (Cart.is_product pid) l = None -> ~ In pid (map Cart.product l).
Proof.
  intros H Hin. apply in_map_iff in Hin as (i & Hi & Hin).
  apply (find_none _ _ H) in Hin. unfold Cart.is_product in Hin.
  rewrite Hi, String.eqb_refl in Hin. done.
Qed.


Lemma Forall_List_filter {A : Type} (P : A -> Prop) (f : A -> bool) (l : list A) :
  Forall P l -> Forall P (List.filter f l).
Proof.
  induction 1 as [|x l Hx _ IH]; simpl; [done|]. destruct (f x); [by constructor | done].
Qed.

Lemma cartQuantities_Cart_save (now : nat) (user : ObjectId) (c : Cart.t) (db : DB) :
  cartQuantitiesSane db ->
  Forall (fun i => (1 <= Cart.quantity i)%Z) (Cart.items c) ->
  cartQuantitiesSane (Cart_save now user c db).
Proof.
  intros H Hc user' cart. unfold Cart_save. cbn [carts set_carts].
  rewrite lookup_insert. case_decide.
  - intros [= <-]. done.
  - apply H.
Qed.

Lemma cartQuantities_carts (db db' : DB) :
  carts db' = carts db -> cartQuantitiesSane db -> cartQuantitiesSane db'.
Proof. intros E H user cart. rewrite E. apply H. Qed.

Lemma restoreStock_carts (l : list Order.item) (db : DB) :
  carts (restoreStock l db) = carts db.
Proof. by rewrite restoreStock_products. Qed.

Lemma handle_cartQuantities (now : nat) (r : Request) (db : DB) :
  cartQuantitiesSane db -> cartQuantitiesSane (snd (handle now r db)).
Proof.
  intros H. destruct r; cbn [handle].
  - unfold getCart. destruct (carts db !! user) as [cart|] eqn:Hc.
    + destruct (negb _); cbn [snd]; [|done]. apply cartQuantities_Cart_save; [done|].
      apply Forall_List_filter. by eapply H.
    + cbn. by apply cartQuantities_Cart_save.
  - unfold addToCart. destruct (quantity <? 1)%Z eqn:Hq; [done|]. apply Z.ltb_ge in Hq.
    destruct (products db !! ObjectId_cast productId) as [product|]; [|done].
    destruct (negb _); [done|].
    destruct (stores db !! Product.store product) as [store|]; [|done].
    destruct (negb _); [done|]. destruct (_ && _); [done|].
    assert (Hqs : Forall (fun i => (1 <= Cart.quantity i)%Z)
                         (Cart.items (default (Cart.mk [] now) (carts db !! user)))).
    { destruct (carts db !! user) as [cart|] eqn:Hc; cbn; [by eapply H | done]. }
    destruct (List.find _ _) as [existingItem|].
    + destruct (_ && _); [done|]. cbn [snd]. apply cartQuantities_Cart_save; [done|].
      by apply Forall_quantity_bump.
    + cbn [snd]. apply cartQuantities_Cart_save; [done|]. cbn [Cart.items].
      apply Forall_app. split; [done|]. by repeat constructor.
  - unfold updateCart. destruct (quantity <? 0)%Z eqn:Hq; [done|]. apply Z.ltb_ge in Hq.
    destruct (carts db !! user) as [cart|] eqn:Hc; [|done].
    assert (Hqs : Forall (fun i => (1 <= Cart.quantity i)%Z) (Cart.items cart))
      by by eapply H.
    destruct (quantity =? 0)%Z eqn:Hq0.
    + cbn [snd]. apply cartQuantities_Cart_save; [done|]. by apply Forall_List_filter.
    + apply Z.eqb_neq in Hq0.
      destruct (products db !! ObjectId_cast productId) as [product|]; [|done].
      destruct (negb _); [done|]. destruct (_ && _); [done|]. cbn [snd].
      apply cartQuantities_Cart_save; [done|]. unfold Cart.updateItemQuantity.
      destruct (List.find _ _); [|done].
      destruct (quantity <=? 0)%Z eqn:Hle; [by apply Forall_List_filter|].
      apply Forall_quantity_set; [lia | done].
  - unfold removeFromCart. destruct (carts db !! user) as [cart|] eqn:Hc; [|done].
    cbn [snd]. apply cartQuantities_Cart_save; [done|]. apply Forall_List_filter.
    by eapply H.
  - unfold clearCart. destruct (carts db !! user) as [cart|]; [|done].
    cbn [snd]. by apply cartQuantities_Cart_save.
  - by rewrite checkout_db.
  - unfold updateOrderStatus. destruct (Store_findByOwner user db) as [[sid s]|]; [|done].
    destruct (Order.status_eqb status Order.refunded); [done|].
    destruct (orders db !! id); [|done]. by destruct (negb _).
  - unfold cancelOrder. destruct (orders db !! id) as [o|]; [|done].
    destruct (negb _); [done|]. destruct (Order.final _); [done|]. cbn [snd].
    eapply cartQuantities_carts; [|done]. by rewrite restoreStock_carts.
  - unfold rateOrder. destruct (negb _); [done|].
    destruct (orders db !! id) as [o|]; [|done].
    destruct (negb _); [done|]. destruct (negb _); [done|].
    destruct (Order.rated o); [done|]. cbn [snd].
    eapply cartQuantities_carts; [|done]. by destruct (stores _ !! _).
Qed.

(** *** Orders *)

Lemma handle_orders_Forall (P : Order.t -> Prop) (now : nat) (r : Request) (db : DB) :
  (forall t o, P o -> P (Order.preSave t false o)) ->
  (forall t s note o, P o -> P (Order.updateStatus t s note o)) ->
  (forall t v review o, P o -> P (Order.addRating t v review o)) ->
  Forall P (orders db) -> Forall P (orders (snd (handle now r db))).
Proof.
  intros Hsave Hst Hrate H.
  assert (Hins : forall id o o', orders db !! id = Some o -> P o' ->
                   Forall P (orders (Order_save now id o' db))).
  { intros id o o' Hid Ho'. unfold Order_save. cbn [orders set_orders].
    apply Forall_insert; [done | by apply Hsave]. }
  assert (Hin : forall id o, orders db !! id = Some o -> P o).
  { intros id o Hid. rewrite Forall_forall in H. apply H. by eapply list_elem_of_lookup_2. }
  destruct r; cbn [handle].
  - unfold getCart. destruct (carts db !! user); cbn;
      repeat match goal with |- context [if ?b then _ else _] => destruct b end; done.
  - unfold addToCart.
    repeat match goal with
           | |- context [if ?b then _ else _] => destruct b
           | |- context [match ?x with _ => _ end] => destruct x
           end; done.
  - unfold updateCart.
    repeat match goal with
           | |- context [if ?b then _ else _] => destruct b
           | |- context [match ?x with _ => _ end] => destruct x
           end; done.
  - unfold removeFromCart. by destruct (carts db !! user).
  - unfold clearCart. by destruct (carts db !! user).
  - by rewrite checkout_db.
  - unfold updateOrderStatus. destruct (Store_findByOwner user db) as [[sid s]|]; [|done].
    destruct (Order.status_eqb status Order.refunded); [done|].
    destruct (orders db !! id) as [o|] eqn:Hid; [|done].
    destruct (negb _); [done|]. cbn [snd]. eapply Hins; [done|]. by eapply Hst, Hin.
  - unfold cancelOrder. destruct (orders db !! id) as [o|] eqn:Hid; [|done].
    destruct (negb _); [done|]. destruct (Order.final _); [done|].
    cbn [snd]. rewrite restoreStock_orders. eapply Hins; [done|]. by eapply Hst, Hin.
  - unfold rateOrder. destruct (negb _); [done|].
    destruct (orders db !! id) as [o|] eqn:Hid; [|done].
    destruct (negb _); [done|]. destruct (negb _); [done|].
    destruct (Order.rated o); [done|]. cbn [snd].
    assert (Hr : Forall P (orders (Order_save now id
                   (Order.addRating now rating (default "" review) o) db)))
      by (eapply Hins; [done|]; by eapply Hrate, Hin).
    by destruct (stores _ !! _).
Qed.

Lemma handle_orderQuantities (now : nat) (r : Request) (db : DB) :
  orderQuantitiesSane db -> orderQuantitiesSane (snd (handle now r db)).
Proof. apply handle_orders_Forall; done. Qed.

(** *** The catalogue *)

(** Only a cancellation that goes through writes to the catalogue: it puts
    the units of the order back. *)
Lemma handle_products (now : nat) (r : Request) (db : DB) :
  products (snd (handle now r db)) = products db
  \/ exists user id reason order,
       r = CancelOrder user id reason
       /\ orders db !! id = Some order
       /\ products (snd (handle now r db)) = adjustStock 1 (Order.items order) (products db).
Proof.
  destruct r; cbn [handle].
  - left. unfold getCart. destruct (carts db !! user); cbn;
      repeat match goal with |- context [if ?b then _ else _] => destruct b end; done.
  - left. unfold addToCart.
    repeat match goal with
           | |- context [if ?b then _ else _] => destruct b
           | |- context [match ?x with _ => _ end] => destruct x
           end; done.
  - left. unfold updateCart.
    repeat match goal with
           | |- context [if ?b then _ else _] => destruct b
           | |- context [match ?x with _ => _ end] => destruct x
           end; done.
  - left. unfold removeFromCart. by destruct (carts db !! user).
  - left. unfold clearCart. by destruct (carts db !! user).
  - left. by rewrite checkout_db.
  - left. unfold updateOrderStatus. destruct (Store_findByOwner user db) as [[sid s]|]; [|done].
    destruct (Order.status_eqb status Order.refunded); [done|].
    destruct (orders db !! id); [|done]. by destruct (negb _).
  - unfold cancelOrder. destruct (orders db !! id) as [o|] eqn:Hid; [|by left].
    destruct (negb _); [by left|]. destruct (Order.final _); [by left|].
    right. exists user, id, reason, o. split; [done|]. split; [done|].
    cbn [snd]. by rewrite restoreStock_products.
  - left. unfold rateOrder. destruct (negb _); [done|].
    destruct (orders db !! id) as [o|]; [|done].
    destruct (negb _); [done|]. destruct (negb _); [done|].
    destruct (Order.rated o); [done|]. cbn [snd]. by destruct (stores _ !! _).
Qed.

Lemma handle_stock (now : nat) (r : Request) (db : DB) (pid : ObjectId) :
  orderQuantitiesSane db ->
  exists d, (0 <= d)%Z
            /\ stockOf (snd (handle now r db)) pid = (fun z => (z + d)%Z) <$> stockOf db pid.
Proof.
  intros Hq. destruct (handle_products now r db) as [E|(user & id & reason & o & _ & Hid & E)].
  - exists 0%Z. split; [done|]. unfold stockOf. rewrite E.
    destruct (products db !! pid); cbn; [f_equal; lia | done].
  - exists (orderedQty pid (Order.items o)). split.
    + apply orderedQty_nonneg. unfold orderQuantitiesSane in Hq. rewrite Forall_forall in Hq.
      apply Hq. by eapply list_elem_of_lookup_2.
    + rewrite (stockOf_adjust 1 (Order.items o) db _ pid E).
      destruct (stockOf db pid); cbn; [f_equal; lia | done].
Qed.

Lemma run_stock (rs : list (nat * Request)) (db : DB) (pid : ObjectId) :
  orderQuantitiesSane db ->
  orderQuantitiesSane (run rs db)
  /\ exists d, (0 <= d)%Z /\ stockOf (run rs db) pid = (fun z => (z + d)%Z) <$> stockOf db pid.
Proof.
  unfold run. revert db. induction rs as [|[now r] rs IH]; intros db Hq; cbn [fold_left].
  - split; [done|]. exists 0%Z. split; [done|].
    destruct (stockOf db pid); cbn; [f_equal; lia | done].
  - destruct (handle_stock now r db pid Hq) as (d1 & Hd1 & E1).
    destruct (IH _ (handle_orderQuantities now r db Hq)) as (Hq' & d2 & Hd2 & E2).
    split; [done|]. exists (d1 + d2)%Z. split; [lia|]. cbn [fst snd]. rewrite E2, E1.
    destruct (stockOf db pid); cbn; [f_equal; lia | done].
Qed.

(** C1.  Along any run of requests, checkout and cancel among them, from a
    database in which no product has a negative stock and the stored order
    lines have quantities of at least 1, no product gets a negative stock,
    whether its stock is tracked or not: a stock never goes down.  Checkout
    itself leaves every stock as it is. *)
Theorem stock_never_negative (rs : list (nat * Request)) (db : DB) :
  stockNonNegative db ->
  orderQuantitiesSane db ->
  (forall pid p, products (run rs db) !! pid = Some p -> (0 <= Product.stock p)%Z)
  /\ (forall pid z, stockOf db pid = Some z ->
        exists z', stockOf (run rs db) pid = Some z' /\ (z <= z')%Z)
  /\ (forall now user ty address notes d pid,
        stockOf (snd (checkout now user ty address notes d)) pid = stockOf d pid).
Proof.
  intros Hs Hq. split; [|split].
  - intros pid p Hp. destruct (run_stock rs db pid Hq) as (_ & d & Hd & E).
    unfold stockOf in E. rewrite Hp in E. cbn in E.
    destruct (products db !! pid) as [p0|] eqn:Hp0; [|done]. cbn in E.
    injection E as E. specialize (Hs pid p0 Hp0). cbn in Hs. lia.
  - intros pid z Hz. destruct (run_stock rs db pid Hq) as (_ & d & Hd & E).
    rewrite Hz in E. cbn in E. eexists. split; [done|]. lia.
  - intros. by rewrite checkout_db.
Qed.
(** ** The worked scenarios *)

Example scenario_checkout_reply :
  checkout 1 "alice" Order.delivery None None Scenario.shop
  = (Reply 500 "Failed to create order", Scenario.shop)
  /\ checkout 1 "bob" Order.pickup None None Scenario.shop = (NoValidItems, Scenario.shop).
Proof. split; vm_compute; reflexivity. Qed.

Example scenario_delivery_status :
  Order.status <$> orders Scenario.afterDelivery !! 0 = Some Order.delivered.
Proof. vm_compute. reflexivity. Qed.

(** The rating arithmetic is that of doubles: with an average of 3.28 over
    seven ratings, a rating of 1 gives 2.99, although the mean is 2.995 and
    23.96 / 8 rounded to two decimals is 3. *)
Example scenario_rating_in_doubles :
  round2 (Number_div
            (Number_add (Number_mul (Store.rating_average Scenario.shop4)
                                    (Number_of_Z (Store.rating_count Scenario.shop4)))
                        (Number_of_Z 1))
            (Number_of_Z (Store.rating_count Scenario.shop4 + 1)))
  = Number_div (Number_of_Z 299) (Number_of_Z 100)
  /\ Number_div (Number_of_Z 299) (Number_of_Z 100) <> Number_of_Z 3.
Proof. split; [vm_compute; reflexivity | vm_compute; discriminate]. Qed.

(** C10.  Reading the cart writes: the stored cart keeps exactly the lines
    that are available at the time of the read, so a line whose product is
    missing, is not active, or has tracked stock below the line's quantity
    is gone from the stored cart; the catalogue, the sellers and the orders
    are not touched.  Whatever happens to the catalogue afterwards, the
    next read and the next checkout start from the pruned lines: no line the
    read dropped comes back, neither in the seller groups checkout forms
    nor in an order.  The first read of the scenario does change the stored
    cart. *)
Theorem getCart_prunes_stored_cart :
  (forall now user db,
      let db' := snd (getCart now user db) in
      cartLines db' user = List.filter (available db) (cartLines db user)
      /\ products db' = products db /\ stores db' = stores db /\ orders db' = orders db
      /\ (forall i,
             products db !! Cart.product i = None
             \/ (exists p, products db !! Cart.product i = Some p
                           /\ (Product.status p <> Product.active
                               \/ (Product.trackStock p = true
                                   /\ (Product.stock p < Cart.quantity i)%Z))) ->
             ~ In i (cartLines db' user))
      /\ (forall catalogue' sellers',
             let later := mkDB catalogue' sellers' (carts db') (orders db') in
             cartLines later user = List.filter (available db) (cartLines db user)
             /\ (forall now' i,
                    In i (cartLines (snd (getCart now' user later)) user) ->
                    available db i = true)
             /\ (forall now' ty address notes o it,
                    In o (ordersOf (fst (checkout now' user ty address notes later))) ->
                    In it (Order.items o) ->
                    exists i, In i (cartLines db user)
                              /\ available db i = true
                              /\ Cart.product i = Order.product it)
             /\ (forall groups sid lines ip,
                    storeGroups (populate later (cartLines later user)) = Some groups ->
                    In (sid, lines) groups ->
                    In ip lines ->
                    In (fst ip) (cartLines db user) /\ available db (fst ip) = true)))
  /\ cartLines (snd (getCart 1 "alice" Scenario.shop)) "alice"
     <> cartLines Scenario.shop "alice".
Proof.
  split; [|by vm_compute].
  intros now user db db'. destruct (getCart_lines now user db) as (Hl & Hp & Hs & Ho).
  do 4 (split; [done|]). split.
  - intros i Hi Hin. apply available_false in Hi. subst db'. rewrite Hl in Hin.
    apply filter_In in Hin as [_ Hin]. congruence.
  - intros catalogue' sellers' later.
    assert (Hlater : cartLines later user = List.filter (available db) (cartLines db user)).
    { rewrite <- Hl. done. }
    split; [done|]. split; [|split].
    + intros now' i Hin. destruct (getCart_lines now' user later) as (Hl' & _).
      rewrite Hl', Hlater in Hin. apply filter_In in Hin as [Hin _].
      by apply filter_In in Hin as [_ ?].
    + intros now' ty address notes o it Ho'. by rewrite checkout_no_orders in Ho'.
    + intros groups sid lines ip Hg Hin Hip.
      apply storeGroups_sellerLines in Hg as (_ & _ & Hlines).
      destruct (Hlines sid lines Hin) as [-> _].
      apply filter_In in Hip as [Hip _]. apply In_resolved_line in Hip.
      rewrite Hlater in Hip. by apply filter_In in Hip.
Qed.

(** C7 as the specification words it fails on the code.  The second order
    of the scenario holds one pear, whose stock is 0.  Alice cancels it and
    the stock is 1; the seller sets the order back to pending through the
    status route; Alice cancels the same order a second time: the reply is
    not [NotCancellable], and the stock is 2. *)
Lemma cancel_again_after_reopening :
  orders Scenario.placed !! 1 = Some Scenario.pearOrder
  /\ Order.customer Scenario.pearOrder = "alice"
  /\ orderedQty "pear" (Order.items Scenario.pearOrder) = 1%Z
  /\ stockOf Scenario.placed "pear" = Some 0%Z
  /\ fst (cancelOrder 4 "alice" 1 None Scenario.placed) <> NotCancellable
  /\ stockOf Scenario.cancelledOnce "pear" = Some 1%Z
  /\ Order.status <$> orders Scenario.reopened !! 1 = Some Order.pending
  /\ fst (cancelOrder 6 "alice" 1 None Scenario.reopened) <> NotCancellable
  /\ stockOf Scenario.cancelledTwice "pear" = Some 2%Z.
Proof. repeat split; by vm_compute. Qed.

(** C8 as the specification words it fails on the code: the first seller
    has an average of 5 over 2 ratings; after a rating of 4 the stored
    average is 4.67, which is neither the quotient (5 * 2 + 4) / 3 as
    doubles give it nor, in exact value, 14/3. *)
Lemma rate_average_not_exact_mean :
  stores Scenario.afterDelivery !! "s1" = Some Scenario.ratedShop
  /\ Store.rating_average Scenario.ratedShop = Number_of_Z 5
  /\ Store.rating_count Scenario.ratedShop = 2%Z
  /\ fst (rateOrder 3 "alice" 0 4 None Scenario.afterDelivery)
     = Reply 200 "Rating added successfully"
  /\ stores Scenario.afterRating !! "s1" = Some Scenario.ratedShop'
  /\ Store.rating_count Scenario.ratedShop' = 3%Z
  /\ Store.rating_average Scenario.ratedShop'
     = Number_div (Number_of_Z 467) (Number_of_Z 100)
  /\ Store.rating_average Scenario.ratedShop'
     <> Number_div
          (Number_add (Number_mul (Store.rating_average Scenario.ratedShop)
                                  (Number_of_Z (Store.rating_count Scenario.ratedShop)))
                      (Number_of_Z 4))
          (Number_of_Z (Store.rating_count Scenario.ratedShop + 1))
  /\ (forall q, double_value (Store.rating_average Scenario.ratedShop') = Some q ->
                ~ (q == 14 # 3)%Q).
Proof.
  split; [by vm_compute|]. split; [by vm_compute|].
  split; [by vm_compute|]. split; [by vm_compute|]. split; [by vm_compute|].
  split; [by vm_compute|]. split; [by vm_compute|]. split.
  - vm_compute. discriminate.
  - intros q Hq. vm_compute in Hq. injection Hq as <-. intros H.
    vm_compute in H. discriminate.
Qed.

(** ** The theorems at work on the scenario *)

Lemma scenario_placed_sane :
  stockNonNegative Scenario.placed /\ orderQuantitiesSane Scenario.placed.
Proof.
  split.
  - unfold stockNonNegative, Scenario.placed, Scenario.shop, Scenario.catalogue.
    cbn [products set_orders].
    repeat (apply map_Forall_insert_2; [by vm_compute|]). apply map_Forall_empty.
  - unfold orderQuantitiesSane. repeat constructor; by vm_compute.
Qed.

Lemma stock_never_negative_witness :
  stockNonNegative Scenario.placed
  /\ orderQuantitiesSane Scenario.placed
  /\ (exists p, products Scenario.placed !! "pear" = Some p
                /\ Product.trackStock p = false /\ Product.stock p = 0%Z)
  /\ forall pid p, products (run Scenario.day Scenario.placed) !! pid = Some p ->
                   (0 <= Product.stock p)%Z.
Proof.
  destruct scenario_placed_sane as [H1 H2].
  split; [exact H1|]. split; [exact H2|]. split.
  - exists Scenario.pear. split; [vm_compute; reflexivity|]. split; reflexivity.
  - exact (proj1 (stock_never_negative Scenario.day Scenario.placed H1 H2)).
Defined.

Lemma checkout_group_filtering_witness :
  sellerActive Scenario.shop "s3" = false
  /\ checkoutStore 1 "bob" Order.pickup None None (Scenario.shop, [])
       ("s3", sellerLines Scenario.shop "bob" "s3")
     = Next Scenario.shop []
  /\ List.filter survives (Scenario.appleLines) <> Scenario.appleLines
  /\ checkoutStore 1 "alice" Order.delivery None None (Scenario.shop, [])
       ("s1", Scenario.appleLines)
     = checkoutStore 1 "alice" Order.delivery None None (Scenario.shop, [])
         ("s1", List.filter survives Scenario.appleLines).
Proof.
  assert (H1 : sellerActive Scenario.shop "s3" = false) by (vm_compute; reflexivity).
  split; [exact H1|].
  destruct (checkout_group_filtering 1 "bob" Order.pickup None None Scenario.shop []
              "s3" (sellerLines Scenario.shop "bob" "s3")) as (Hskip & _).
  split; [exact (Hskip H1)|]. split; [vm_compute; discriminate|].
  exact (proj1 (proj2 (proj2 (checkout_group_filtering 1 "alice" Order.delivery None None
                                Scenario.shop [] "s1" Scenario.appleLines)))).
Defined.

Lemma checkout_NoValidItems_witness :
  fst (checkout 1 "bob" Order.pickup None None Scenario.shop) = NoValidItems
  /\ snd (checkout 1 "bob" Order.pickup None None Scenario.shop) = Scenario.shop.
Proof.
  assert (H : fst (checkout 1 "bob" Order.pickup None None Scenario.shop) = NoValidItems)
    by (vm_compute; reflexivity).
  split; [exact H|].
  exact (proj1 (proj2 (checkout_NoValidItems 1 "bob" Order.pickup None None Scenario.shop) H)).
Defined.

Lemma pricing_total_invariant_witness :
  Forall pricingConsistent (orders Scenario.placed)
  /\ length (orders (run Scenario.day Scenario.placed)) = 2
  /\ Forall pricingConsistent (orders (run Scenario.day Scenario.placed)).
Proof.
  assert (H : Forall pricingConsistent (orders Scenario.placed))
    by (repeat constructor; apply preSave_consistent).
  split; [exact H|]. split; [vm_compute; reflexivity|].
  exact (proj1 (pricing_total_invariant Scenario.day Scenario.placed H)).
Defined.

Lemma cancel_restores_stock_witness :
  orders Scenario.placed !! 0 = Some Scenario.appleOrder
  /\ Order.customer Scenario.appleOrder = "alice"
  /\ Order.status Scenario.appleOrder = Order.pending
  /\ stockOf Scenario.placed "apple" = Some 5%Z
  /\ stockOf (snd (cancelOrder 4 "alice" 0 None Scenario.placed)) "apple"
     = (fun z => (z + orderedQty "apple" (Order.items Scenario.appleOrder))%Z)
         <$> stockOf Scenario.placed "apple"
  /\ cancelOrder 5 "alice" 0 None (snd (cancelOrder 4 "alice" 0 None Scenario.placed))
     = (NotCancellable, snd (cancelOrder 4 "alice" 0 None Scenario.placed)).
Proof.
  assert (H1 : orders Scenario.placed !! 0 = Some Scenario.appleOrder)
    by (vm_compute; reflexivity).
  assert (H2 : Order.customer Scenario.appleOrder = "alice") by (vm_compute; reflexivity).
  assert (H3 : Order.status Scenario.appleOrder = Order.pending) by (vm_compute; reflexivity).
  split; [exact H1|]. split; [exact H2|]. split; [exact H3|].
  split; [vm_compute; reflexivity|].
  destruct (cancel_restores_stock 4 "alice" 0 None Scenario.placed Scenario.appleOrder H1 H2)
    as (Hiff & _ & Hdone).
  assert (Hne : fst (cancelOrder 4 "alice" 0 None Scenario.placed) <> NotCancellable).
  { intros E. apply Hiff in E. rewrite H3 in E. destruct E as [E|[E|E]]; discriminate E. }
  destruct (Hdone Hne) as (_ & Hstock & Hagain).
  split; [exact (Hstock "apple") | exact (Hagain 5 None)].
Defined.

Lemma rate_order_aggregate_witness :
  orders Scenario.afterDelivery !! 0 = Some Scenario.deliveredOrder
  /\ Order.customer Scenario.deliveredOrder = "alice"
  /\ (1 <= 4 <= 5)%Z
  /\ Order.status Scenario.deliveredOrder = Order.delivered
  /\ Order.rating_value Scenario.deliveredOrder = None
  /\ stores Scenario.afterDelivery !! Order.store Scenario.deliveredOrder
     = Some Scenario.ratedShop
  /\ fst (rateOrder 3 "alice" 0 4 None Scenario.afterDelivery)
     = Reply 200 "Rating added successfully"
  /\ rateOrder 5 "alice" 0 5 None (snd (rateOrder 3 "alice" 0 4 None Scenario.afterDelivery))
     = (AlreadyRated, snd (rateOrder 3 "alice" 0 4 None Scenario.afterDelivery)).
Proof.
  assert (H1 : orders Scenario.afterDelivery !! 0 = Some Scenario.deliveredOrder)
    by (vm_compute; reflexivity).
  assert (H2 : Order.customer Scenario.deliveredOrder = "alice") by (vm_compute; reflexivity).
  assert (H3 : (1 <= 4 <= 5)%Z) by lia.
  assert (H4 : Order.status Scenario.deliveredOrder = Order.delivered)
    by (vm_compute; reflexivity).
  assert (H5 : Order.rating_value Scenario.deliveredOrder = None) by (vm_compute; reflexivity).
  assert (H6 : stores Scenario.afterDelivery !! Order.store Scenario.deliveredOrder
               = Some Scenario.ratedShop) by (vm_compute; reflexivity).
  do 6 (split; [assumption|]).
  destruct (rate_order_aggregate 3 "alice" 0 4 None Scenario.afterDelivery
              Scenario.deliveredOrder H1 H2 H3) as (_ & _ & H).
  destruct (H H4 H5 Scenario.ratedShop H6) as (Hr & _ & _ & _ & _ & Hagain).
  split; [exact Hr|]. apply Hagain. lia.
Defined.

Lemma remove_absent_line_noop_witness :
  carts Scenario.shop !! "bob" = Some (Cart.mk [Cart.mkItem "plum" 2 (Qc_of_Z 4)] 0)
  /\ (forall i, In i [Cart.mkItem "plum" 2 (Qc_of_Z 4)] -> Cart.product i <> "kiwi")
  /\ cartLines (snd (removeFromCart 1 "bob" "kiwi" Scenario.shop)) "bob"
     = cartLines Scenario.shop "bob".
Proof.
  assert (H1 : carts Scenario.shop !! "bob"
               = Some (Cart.mk [Cart.mkItem "plum" 2 (Qc_of_Z 4)] 0))
    by (vm_compute; reflexivity).
  assert (H2 : forall i, In i [Cart.mkItem "plum" 2 (Qc_of_Z 4)] -> Cart.product i <> "kiwi").
  { intros i [<-|[]]. simpl. discriminate. }
  split; [exact H1|]. split; [exact H2|].
  exact (proj1 (proj2 (proj2 (proj2
           (remove_absent_line_noop 1 "bob" "kiwi" Scenario.shop _ H1 H2))))).
Defined.

Lemma getCart_prunes_stored_cart_witness :
  (exists p, products Scenario.shop !! "melon" = Some p
             /\ Product.trackStock p = true /\ (Product.stock p < 2)%Z)
  /\ In (Cart.mkItem "melon" 2 (Qc_of_Z 25)) (cartLines Scenario.shop "alice")
  /\ ~ In (Cart.mkItem "melon" 2 (Qc_of_Z 25))
          (cartLines (snd (getCart 1 "alice" Scenario.shop)) "alice").
Proof.
  assert (H1 : exists p, products Scenario.shop !! "melon" = Some p
                         /\ Product.trackStock p = true /\ (Product.stock p < 2)%Z).
  { exists Scenario.melon. split; [vm_compute; reflexivity|]. split; [reflexivity|].
    vm_compute. reflexivity. }
  split; [exact H1|]. split; [vm_compute; right; right; left; reflexivity|].
  destruct (proj1 getCart_prunes_stored_cart 1 "alice" Scenario.shop)
    as (_ & _ & _ & _ & H & _).
  apply H. right. destruct H1 as (p & Hp & Ht & Hs). exists p. split; [exact Hp|].
  right. split; [exact Ht | exact Hs].
Defined.

(** * Further properties of the code *)

(** ** The cart model *)

Lemma fold_quantity_from (l : list Cart.item) (a : Z) :
  fold_left (fun total i => (total + Cart.quantity i)%Z) l a
  = (a + fold_left (fun total i => (total + Cart.quantity i)%Z) l 0)%Z.
Proof.
  revert a. induction l as [|i l IH]; intros a; simpl; [lia|].
  rewrite IH, (IH (0 + Cart.quantity i)%Z). lia.
Qed.

Lemma fold_amount_from (l : list Cart.item) (a : Qc) :
  fold_left (fun total i => (total + Cart.price i * Qc_of_Z (Cart.quantity i))%Qc) l a
  = (a + fold_left (fun total i => (total + Cart.price i * Qc_of_Z (Cart.quantity i))%Qc)
                   l 0)%Qc.
Proof.
  revert a. induction l as [|i l IH]; intros a; simpl; [ring|].
  rewrite IH, (IH (0 + Cart.price i * Qc_of_Z (Cart.quantity i))%Qc). ring.
Qed.

Lemma totalItems_cons (i : Cart.item) (l : list Cart.item) (t t' : nat) :
  Cart.totalItems (Cart.mk (i :: l) t) = (Cart.quantity i + Cart.totalItems (Cart.mk l t'))%Z.
Proof. unfold Cart.totalItems. simpl. rewrite fold_quantity_from. lia. Qed.

Lemma totalItems_app (l1 l2 : list Cart.item) (t t1 t2 : nat) :
  Cart.totalItems (Cart.mk (l1 ++ l2) t)
  = (Cart.totalItems (Cart.mk l1 t1) + Cart.totalItems (Cart.mk l2 t2))%Z.
Proof.
  unfold Cart.totalItems. simpl. rewrite fold_left_app. apply fold_quantity_from.
Qed.

Lemma totalItems_bump (pid : ObjectId) (q : Z) (pr : Qc) (l : list Cart.item) (t t' : nat)
    (i0 : Cart.item) :
  List.find (Cart.is_product pid) l = Some i0 ->
  Cart.totalItems (Cart.mk (Cart.bump pid q pr l) t) = (Cart.totalItems (Cart.mk l t') + q)%Z.
Proof.
  induction l as [|i l IH]; simpl; [done|].
  destruct (Cart.is_product pid i).
  - intros _. rewrite !(totalItems_cons _ _ _ t'). simpl. lia.
  - intros H. rewrite (totalItems_cons _ _ t t), (totalItems_cons _ _ t' t'), (IH H). lia.
Qed.

Lemma find_product_Some (pid : ObjectId) (l : list Cart.item) (i : Cart.item) :
  List.find (Cart.is_product pid) l = Some i -> In i l /\ Cart.product i = pid.
Proof.
  intros H. apply find_some in H as [Hin H]. split; [done|]. by apply String.eqb_eq.
Qed.

Lemma filter_product_absent (pid : ObjectId) (l : list Cart.item) :
  ~ In pid (map Cart.product l) ->
  List.filter (fun i => negb (Cart.is_product pid i)) l = l.
Proof.
  intros H. apply filter_all. intros i Hi. apply negb_true_iff, String.eqb_neq.
  intros E. apply H. rewrite <- E. by apply in_map.
Qed.

(** [addItem] adds the quantity to the cart's item count, whether the
    product had a line or not, keeps the other products' lines, and leaves
    the product with the new price on the line [find] sees. *)
Theorem Cart_addItem_totalItems (now : nat) (pid : ObjectId) (q : Z) (pr : Qc) (c : Cart.t) :
  Cart.totalItems (Cart.addItem now pid q pr c) = (Cart.totalItems c + q)%Z
  /\ (exists i, List.find (Cart.is_product pid) (Cart.items (Cart.addItem now pid q pr c))
                = Some i
                /\ Cart.price i = pr
                /\ Cart.quantity i
                   = (default 0%Z (Cart.quantity <$> List.find (Cart.is_product pid) (Cart.items c))
                      + q)%Z)
  /\ List.filter (fun i => negb (Cart.is_product pid i)) (Cart.items (Cart.addItem now pid q pr c))
     = List.filter (fun i => negb (Cart.is_product pid i)) (Cart.items c)
  /\ (List.NoDup (map Cart.product (Cart.items c)) ->
      List.NoDup (map Cart.product (Cart.items (Cart.addItem now pid q pr c)))).
Proof.
  unfold Cart.addItem. destruct c as [l t]. simpl.
  destruct (List.find (Cart.is_product pid) l) as [i0|] eqn:Hfind; simpl.
  - split; [by eapply totalItems_bump|]. split; [|split].
    + clear -Hfind. induction l as [|i l IH]; simpl in *; [done|].
      destruct (Cart.is_product pid i) eqn:E; simpl.
      * injection Hfind as <-. unfold Cart.is_product in *. simpl. rewrite E. eauto.
      * rewrite E. by apply IH.
    + clear. induction l as [|i l IH]; simpl; [done|].
      destruct (Cart.is_product pid i) eqn:E; simpl.
      * unfold Cart.is_product in *. simpl. by rewrite E.
      * rewrite E. simpl. by rewrite IH.
    + by rewrite map_product_bump.
  - split; [|split; [|split]].
    + rewrite (totalItems_app _ _ _ t t). unfold Cart.totalItems at 2. simpl. lia.
    + exists (Cart.mkItem pid q pr). split; [|done].
      clear -Hfind. induction l as [|i l IH]; simpl in *.
      * unfold Cart.is_product. simpl. by rewrite String.eqb_refl.
      * destruct (Cart.is_product pid i); [done | by apply IH].
    + rewrite List.filter_app. simpl. unfold Cart.is_product at 2. simpl.
      rewrite String.eqb_refl. simpl. by rewrite app_nil_r.
    + intros Hnd. rewrite map_app. simpl. apply NoDup_ListNoDup, NoDup_app. repeat split.
      * by apply NoDup_ListNoDup.
      * intros x Hin Hin'. apply list_elem_of_singleton in Hin'. subst x.
        apply list_elem_of_In in Hin. by apply find_product_None in Hfind.
      * apply NoDup_singleton.
Qed.

(** Adding a product the cart does not hold and removing it again gives the
    lines back; after [removeItem] no line of the product is left, and the
    item count drops by what the product's lines held. *)
Theorem Cart_add_remove_round_trip (now now' : nat) (pid : ObjectId) (q : Z) (pr : Qc)
    (c : Cart.t) :
  (~ In pid (map Cart.product (Cart.items c)) ->
   Cart.items (Cart.removeItem now' pid (Cart.addItem now pid q pr c)) = Cart.items c)
  /\ ~ In pid (map Cart.product (Cart.items (Cart.removeItem now pid c)))
  /\ (Cart.totalItems (Cart.removeItem now pid c)
      = Cart.totalItems c
        - Cart.totalItems (Cart.mk (List.filter (Cart.is_product pid) (Cart.items c)) now))%Z.
Proof.
  split; [|split].
  - intros Habs. unfold Cart.addItem.
    destruct (List.find (Cart.is_product pid) (Cart.items c)) as [i0|] eqn:Hfind.
    + apply find_product_Some in Hfind as [Hin E]. exfalso. apply Habs. rewrite <- E.
      by apply in_map.
    + unfold Cart.removeItem. simpl. rewrite List.filter_app. simpl.
      unfold Cart.is_product at 2. simpl. rewrite String.eqb_refl. simpl.
      rewrite app_nil_r. by apply filter_product_absent.
  - unfold Cart.removeItem. simpl. intros Hin. apply in_map_iff in Hin as (i & E & Hin).
    apply filter_In in Hin as [_ Hin]. unfold Cart.is_product in Hin.
    rewrite E, String.eqb_refl in Hin. done.
  - unfold Cart.removeItem. destruct c as [l t]. simpl. induction l as [|i l IH]; [done|].
    simpl. destruct (Cart.is_product pid i); simpl.
    + rewrite (totalItems_cons i l t t), (totalItems_cons i _ now now). lia.
    + rewrite (totalItems_cons i l t t), (totalItems_cons i _ now now). lia.
Qed.

(** ** Reading the cart and its summary *)

Lemma available_products (db db' : DB) (i : Cart.item) :
  products db' = products db -> available db' i = available db i.
Proof. intros H. unfold available. by rewrite H. Qed.

Lemma available_survives (db : DB) (i : Cart.item) :
  available db i = true
  <-> exists p, products db !! Cart.product i = Some p /\ survives (i, p) = true.
Proof.
  unfold available, survives. destruct (products db !! Cart.product i) as [p|]; simpl.
  - assert (E : ((Cart.quantity i <=? Product.stock p)%Z || negb (Product.trackStock p))
                = negb (Product.trackStock p && (Product.stock p <? Cart.quantity i)%Z)).
    { destruct (Product.trackStock p); simpl; [|by rewrite orb_true_r].
      rewrite orb_false_r. destruct (Z.leb_spec (Cart.quantity i) (Product.stock p)),
        (Z.ltb_spec (Product.stock p) (Cart.quantity i)); simpl; try done; lia. }
    rewrite E. split; [by eauto | by intros (p' & [= <-] & H)].
  - split; [done | by intros (p' & [=] & _)].
Qed.

(** The filter of the cart routes and the line filter of checkout are the
    same test: a line is available exactly when its product exists and the
    line survives checkout.  So after [GET /] every line of the stored cart
    survives, and checkout can then leave out a line only with its whole
    seller. *)
Theorem cart_filter_is_checkout_filter (now : nat) (user : ObjectId) (db : DB) :
  (forall i, available db i = true
             <-> exists p, products db !! Cart.product i = Some p /\ survives (i, p) = true)
  /\ (forall sid ip,
         In ip (sellerLines (snd (getCart now user db)) user sid) -> survives ip = true)
  /\ (forall sid,
         List.filter survives (sellerLines (snd (getCart now user db)) user sid)
         = sellerLines (snd (getCart now user db)) user sid).
Proof.
  split; [apply available_survives|].
  destruct (getCart_lines now user db) as (Hl & Hp & _).
  assert (H : forall sid ip,
             In ip (sellerLines (snd (getCart now user db)) user sid) -> survives ip = true).
  { intros sid [i p] Hin. unfold sellerLines, linesOf in Hin.
    apply filter_In in Hin as [Hin _]. pose proof (In_resolved _ _ _ Hin) as Hres.
    unfold resolved in Hin. apply elem_of_omap_In in Hin as (i' & Hi' & Hin).
    destruct (products _ !! Cart.product i') as [p'|]; [|done]. injection Hin as -> ->.
    rewrite Hl in Hi'. apply filter_In in Hi' as [_ Hav].
    apply available_survives in Hav as (p'' & Hp'' & Hsv). simpl in Hres.
    rewrite Hp in Hres. by replace p with p'' by congruence. }
  split; [done|]. intros sid. apply filter_all. intros ip. apply H.
Qed.

Lemma getCart_stored_cart (now : nat) (user : ObjectId) (db : DB) :
  exists c, carts (snd (getCart now user db)) !! user = Some c
            /\ Cart.items c = List.filter (available db) (cartLines db user).
Proof.
  unfold getCart, cartLines. destruct (carts db !! user) as [cart|] eqn:Hc.
  - destruct (negb _) eqn:E; simpl.
    + eexists. by rewrite lookup_insert_eq.
    + apply negb_false_iff, Nat.eqb_eq, filter_length_eq in E. exists cart. by rewrite E.
  - simpl. eexists. by rewrite lookup_insert_eq.
Qed.

(** A second read right after a read writes nothing: the database stays as
    the first read left it (time stamp included) and the reply is the stored
    cart. *)
Theorem getCart_second_read_is_pure (now now' : nat) (user : ObjectId) (db : DB) :
  snd (getCart now' user (snd (getCart now user db))) = snd (getCart now user db)
  /\ exists c, carts (snd (getCart now user db)) !! user = Some c
               /\ fst (getCart now' user (snd (getCart now user db))) = CartJson 200 c
               /\ Cart.items c = List.filter (available db) (cartLines db user).
Proof.
  assert (Hpure : forall (d : DB) (c : Cart.t),
             carts d !! user = Some c ->
             List.filter (available d) (Cart.items c) = Cart.items c ->
             getCart now' user d = (CartJson 200 c, d)).
  { intros d c Hc Hf. unfold getCart. rewrite Hc, Hf, Nat.eqb_refl. done. }
  destruct (getCart_stored_cart now user db) as (c & Hc & Hitems).
  destruct (getCart_lines now user db) as (_ & Hp & _).
  assert (Hf : List.filter (available (snd (getCart now user db))) (Cart.items c)
               = Cart.items c).
  { rewrite Hitems. rewrite (filter_ext _ (available db)) by (intros; by apply available_products).
    apply filter_idem. }
  rewrite (Hpure _ c Hc Hf). simpl. split; [done|]. by exists c.
Qed.

Lemma fold_amount_Qcsum (l : list Cart.item) :
  fold_left (fun total i => (total + Cart.price i * Qc_of_Z (Cart.quantity i))%Qc) l 0%Qc
  = Qcsum (map (fun i => (Cart.price i * Qc_of_Z (Cart.quantity i))%Qc) l).
Proof.
  induction l as [|i l IH]; simpl; [done|]. rewrite fold_amount_from, IH. ring.
Qed.

(** [GET /summary] reports, without writing, the totals of the cart that
    [GET /] would store: same item count, amount and number of lines, the
    amount being the sum of the listed line totals.  A customer without a
    cart gets zeros. *)
Theorem summary_matches_stored_cart (now : nat) (user : ObjectId) (db : DB) :
  (exists c,
      carts (snd (getCart now user db)) !! user = Some c
      /\ sj_totalItems (getCartSummary user db) = cs_totalItems (Cart_getSummary c)
      /\ sj_totalAmount (getCartSummary user db) = cs_totalAmount (Cart_getSummary c)
      /\ sj_itemCount (getCartSummary user db) = cs_itemCount (Cart_getSummary c)
      /\ map sl_product (sj_items (getCartSummary user db)) = map Cart.product (Cart.items c))
  /\ sj_totalAmount (getCartSummary user db)
     = Qcsum (map sl_total (sj_items (getCartSummary user db)))
  /\ (carts db !! user = None -> getCartSummary user db = mkSummaryJson 0 0%Qc 0 []).
Proof.
  split; [|split].
  - destruct (getCart_stored_cart now user db) as (c & Hc & Hitems).
    exists c. split; [done|]. unfold getCartSummary, Cart_getSummary, Cart.totalItems,
      Cart.totalAmount, cartLines in *. rewrite Hitems.
    destruct (carts db !! user) as [cart|]; simpl; [|done].
    rewrite map_map. done.
  - unfold getCartSummary. destruct (carts db !! user) as [cart|]; simpl; [|done].
    rewrite map_map. simpl. apply fold_amount_Qcsum.
  - intros H. unfold getCartSummary. by rewrite H.
Qed.

(** ** Partition of the cart by seller *)

Lemma groupPush_lines {A : Type} (k : string) (x : A) (g : list (string * list A)) :
  concat (map snd (groupPush k x g)) ≡ₚ concat (map snd g) ++ [x].
Proof.
  induction g as [|[k' xs] g IH]; simpl; [done|].
  destruct (String.eqb k' k); simpl.
  - rewrite <- !app_assoc. apply Permutation_app_head, Permutation_app_comm.
  - rewrite IH. by rewrite app_assoc.
Qed.

Lemma pushLines_lines (l : list PItem) (g0 : list (string * list PItem)) :
  concat (map snd (fold_left pushLine l g0)) ≡ₚ concat (map snd g0) ++ l.
Proof.
  revert g0. induction l as [|ip l IH]; intros g0; simpl; [by rewrite app_nil_r|].
  rewrite IH. unfold pushLine. rewrite groupPush_lines, <- app_assoc. done.
Qed.

Lemma resolved_all (db : DB) (l : list Cart.item) :
  Forall (fun i => is_Some (products db !! Cart.product i)) l ->
  map fst (resolved db l) = l.
Proof.
  induction 1 as [|i l [p Hp] _ IH]; [done|].
  unfold resolved. rewrite omap_cons_option_list. fold (resolved db l).
  rewrite Hp. simpl. by rewrite IH.
Qed.

Lemma storeGroups_None (db : DB) (l : list Cart.item) :
  storeGroups (populate db l) = None
  <-> Exists (fun i => products db !! Cart.product i = None) l.
Proof.
  unfold storeGroups. generalize (@nil (string * list PItem)) as g0.
  induction l as [|i l IH]; intros g0; simpl.
  - split; [done | by intros H%Exists_nil].
  - rewrite Exists_cons. destruct (products db !! Cart.product i) as [p|] eqn:Hp.
    + rewrite IH. split; [by right | by intros [|]].
    + split; [by left|]. intros _. clear. induction (populate db l) as [|x xs IHx]; [done|].
      apply IHx.
Qed.

(** The grouping loop of checkout partitions the cart: no seller has two
    groups, no group is empty, a group holds exactly the lines of its
    seller in cart order, every cart line is in some group, and nothing
    else is. *)
Theorem cart_partition_by_seller (db : DB) (l : list Cart.item)
    (groups : list (string * list PItem)) :
  storeGroups (populate db l) = Some groups ->
  List.NoDup (map fst groups)
  /\ (forall sid its, In (sid, its) groups ->
        its <> [] /\ its = linesOf sid (resolved db l)
        /\ Forall (fun ip => Product.store (snd ip) = sid) its)
  /\ concat (map snd groups) ≡ₚ resolved db l
  /\ map fst (resolved db l) = l
  /\ map fst (concat (map snd groups)) ≡ₚ l.
Proof.
  intros H. pose proof (storeGroups_sellerLines db l groups H) as (Hnd & Hall & Hlines).
  apply storeGroups_resolved in H as [-> _].
  assert (Hperm : concat (map snd (fold_left pushLine (resolved db l) [])) ≡ₚ resolved db l).
  { by rewrite pushLines_lines. }
  split; [done|]. split; [|split; [done|split; [by apply resolved_all|]]].
  - intros sid its Hin. destruct (Hlines sid its Hin) as [E Hne]. split; [done|].
    split; [done|]. rewrite E. apply Forall_forall. intros ip Hip.
    apply list_elem_of_In, filter_In in Hip as [_ Hip]. by apply String.eqb_eq.
  - rewrite Hperm. by rewrite resolved_all.
Qed.

(** Checkout never writes and never replies with orders.  It replies 400
    "Cart is empty" exactly for a cart without lines, and 500 exactly when
    a product of a cart line is gone from the catalogue or some seller group
    is due an order (an active seller with a surviving line): the
    [save()] of the order throws.  Every other cart gets 400 "No valid items
    to order". *)
Theorem checkout_writes_nothing (now : nat) (user : ObjectId) (ty : Order.DeliveryType)
    (address notes : option string) (db : DB) :
  snd (checkout now user ty address notes db) = db
  /\ (forall code os, fst (checkout now user ty address notes db) <> OrdersJson code os)
  /\ (fst (checkout now user ty address notes db) = EmptyCart <-> cartLines db user = [])
  /\ (fst (checkout now user ty address notes db) = Reply 500 "Failed to create order"
      <-> Exists (fun i => products db !! Cart.product i = None) (cartLines db user)
          \/ exists groups,
               storeGroups (populate db (cartLines db user)) = Some groups
               /\ Exists (fun g => yieldsOrder db g = true) groups)
  /\ (fst (checkout now user ty address notes db) = NoValidItems
      \/ fst (checkout now user ty address notes db) = EmptyCart
      \/ fst (checkout now user ty address notes db) = Reply 500 "Failed to create order").
Proof.
  rewrite checkout_outcome. cbn [fst snd]. split; [done|].
  destruct (cartLines db user) as [|i l] eqn:Hl.
  { split; [done|]. split; [done|]. split; [|by right; left]. split; [done|].
    intros [H|(groups & [= <-] & H)]; by apply Exists_nil in H. }
  destruct (storeGroups (populate db (i :: l))) as [groups|] eqn:Hg.
  - destruct (existsb (yieldsOrder db) groups) eqn:Hex.
    + split; [done|]. split; [done|]. split; [|by right; right]. split; [|done].
      intros _. right. exists groups. split; [done|]. by apply existsb_true_Exists.
    + split; [done|]. split; [done|]. split; [|by left]. split; [done|].
      intros [H|(groups' & [= <-] & H)].
      * apply storeGroups_None in H. congruence.
      * apply existsb_true_Exists in H. congruence.
  - split; [done|]. split; [done|]. split; [|by right; right]. split; [|done].
    intros _. left. by apply storeGroups_None.
Qed.

(** ** Orders over time *)

Lemma orderExtends_refl (o : Order.t) : orderExtends o o.
Proof. unfold orderExtends. by repeat split. Qed.

Lemma orderExtends_trans (o1 o2 o3 : Order.t) :
  orderExtends o1 o2 -> orderExtends o2 o3 -> orderExtends o1 o3.
Proof.
  intros (H1 & H2 & H3 & H4 & H5 & H6 & H7) (K1 & K2 & K3 & K4 & K5 & K6 & K7).
  unfold orderExtends. repeat split; try congruence.
  - by etrans.
  - destruct (H7 H) as (E & _). destruct K7 as (-> & _); [|done].
    unfold Order.rated in *. by rewrite E.
  - destruct (H7 H) as (E & E' & _). destruct K7 as (_ & -> & _); [|done].
    unfold Order.rated in *. by rewrite E.
  - destruct (H7 H) as (E & _ & E'). destruct K7 as (_ & _ & ->); [|done].
    unfold Order.rated in *. by rewrite E.
Qed.

Lemma lookup_Order_save (now id i : nat) (o o' : Order.t) (db : DB) :
  orders db !! id = Some o ->
  orders (Order_save now id o' db) !! i
  = if decide (i = id) then Some (Order.preSave now false o') else orders db !! i.
Proof.
  intros Ho. unfold Order_save. simpl. case_decide as E.
  - subst. apply list_lookup_insert_eq. by eapply lookup_lt_Some.
  - by apply list_lookup_insert_ne.
Qed.

Lemma ordersStep_same (now : nat) (l l' : list Order.t) : l' = l -> ordersStep now l l'.
Proof. intros ->. split; [done|]. split; [by left | congruence]. Qed.

Lemma ordersStep_save (now id : nat) (o0 o1 : Order.t) (db : DB) (l' : list Order.t) :
  orders db !! id = Some o0 ->
  ((exists s note, o1 = Order.updateStatus now s note o0)
   \/ (exists v review, Order.rated o0 = false /\ o1 = Order.addRating now v review o0)) ->
  l' = orders (Order_save now id o1 db) ->
  ordersStep now (orders db) l'.
Proof.
  intros Hid Ho1 ->. split.
  { unfold Order_save. simpl. by rewrite length_insert. }
  split.
  - intros i o Hi. rewrite (lookup_Order_save _ _ _ o0) by done. case_decide; [|by left].
    subst i. rewrite Hid in Hi. injection Hi as <-.
    destruct Ho1 as [(s & note & ->)|(v & review & Hr & ->)]; right; [left|right]; eauto.
  - intros i o Hi. rewrite (lookup_Order_save _ _ _ o0) by done. case_decide; [|congruence].
    subst. congruence.
Qed.

Lemma handle_ordersStep (now : nat) (r : Request) (db : DB) :
  ordersStep now (orders db) (orders (snd (handle now r db))).
Proof.
  destruct r; simpl.
  - apply ordersStep_same. by destruct (getCart_lines now user db) as (_ & _ & _ & ?).
  - apply ordersStep_same. unfold addToCart.
    repeat match goal with
           | |- context [if ?b then _ else _] => destruct b
           | |- context [match ?x with _ => _ end] => destruct x
           end; done.
  - apply ordersStep_same. unfold updateCart.
    repeat match goal with
           | |- context [if ?b then _ else _] => destruct b
           | |- context [match ?x with _ => _ end] => destruct x
           end; done.
  - apply ordersStep_same. unfold removeFromCart. by destruct (carts db !! user).
  - apply ordersStep_same. unfold clearCart. by destruct (carts db !! user).
  - apply ordersStep_same. by rewrite checkout_db.
  - unfold updateOrderStatus.
    destruct (Store_findByOwner user db) as [[sid s]|]; [|by apply ordersStep_same].
    destruct (Order.status_eqb status Order.refunded); [by apply ordersStep_same|].
    destruct (orders db !! id) as [o|] eqn:Ho; [|by apply ordersStep_same].
    destruct (negb _); [by apply ordersStep_same|]. simpl.
    eapply ordersStep_save; [done| |done]. left. eauto.
  - unfold cancelOrder. destruct (orders db !! id) as [o|] eqn:Ho; [|by apply ordersStep_same].
    destruct (negb _); [by apply ordersStep_same|].
    destruct (Order.final _); [by apply ordersStep_same|].
    cbn [snd]. eapply ordersStep_save; [done| |by rewrite restoreStock_orders]. left. eauto.
  - unfold rateOrder. destruct (negb _); [by apply ordersStep_same|].
    destruct (orders db !! id) as [o|] eqn:Ho; [|by apply ordersStep_same].
    destruct (negb _); [by apply ordersStep_same|]. destruct (negb _); [by apply ordersStep_same|].
    destruct (Order.rated o) eqn:Hr; [by apply ordersStep_same|]. cbn [snd].
    eapply ordersStep_save; [done| |by destruct (stores _ !! _)]. right. eauto.
Qed.

Lemma ordersStep_extends (now : nat) (before after : list Order.t) (i : nat) (o : Order.t) :
  ordersStep now before after ->
  before !! i = Some o ->
  exists o', after !! i = Some o' /\ orderExtends o o'.
Proof.
  intros (_ & H & _) Hi.
  destruct (H i o Hi) as [E|[(s & note & E)|(v & review & Hr & E)]].
  - exists o. split; [done | apply orderExtends_refl].
  - eexists. split; [exact E|]. unfold orderExtends. simpl.
    repeat split; try done. by apply prefix_app_r.
  - eexists. split; [exact E|]. unfold orderExtends. simpl.
    repeat split; try done; congruence.
Qed.

(** Orders are never deleted or rewritten: along any run of requests an
    order keeps its position, customer, seller, lines and delivery choice,
    its timeline only grows at the end, and a rating once given is never
    replaced. *)
Theorem order_history_kept (rs : list (nat * Request)) (db : DB) (i : nat) (o : Order.t) :
  orders db !! i = Some o ->
  length (orders db) <= length (orders (run rs db))
  /\ exists o', orders (run rs db) !! i = Some o' /\ orderExtends o o'.
Proof.
  unfold run. revert db o. induction rs as [|[now r] rs IH]; intros db o Hi; simpl.
  - split; [done|]. exists o. split; [done | apply orderExtends_refl].
  - pose proof (handle_ordersStep now r db) as Hstep.
    destruct (ordersStep_extends _ _ _ _ _ Hstep Hi) as (o1 & Hi1 & He1).
    destruct (IH _ _ Hi1) as (Hlen & o2 & Hi2 & He2).
    split; [destruct Hstep as (? & _); lia|].
    exists o2. split; [done|]. by eapply orderExtends_trans.
Qed.

(** The last timeline entry of every order is its current status, in every
    state a run reaches from a database where this holds. *)
Theorem timeline_ends_with_status (rs : list (nat * Request)) (db : DB) :
  Forall (fun o => lastStatus o = Some (Order.status o)) (orders db) ->
  Forall (fun o => lastStatus o = Some (Order.status o)) (orders (run rs db)).
Proof.
  unfold run. revert db. induction rs as [|[now r] rs IH]; intros db H; simpl; [done|].
  apply IH. destruct (handle_ordersStep now r db) as (_ & Hold & Hnew).
  apply Forall_lookup. intros i o' Hi'.
  destruct (orders db !! i) as [o|] eqn:Hi.
  - rewrite Forall_lookup in H. specialize (H i o Hi).
    destruct (Hold i o Hi) as [E|[(s & note & E)|(v & review & Hr & E)]];
      rewrite E in Hi'; injection Hi' as <-.
    + done.
    + unfold lastStatus. simpl. by rewrite last_snoc.
    + done.
  - destruct (Hnew i o' Hi Hi') as [-> Htl]. unfold lastStatus. by rewrite Htl.
Qed.

(** ** Cart quantities along a run *)

(** Along any run of requests every line of every stored cart keeps a
    quantity of at least 1. *)
Theorem run_keeps_cart_quantities (rs : list (nat * Request)) (db : DB) :
  cartQuantitiesSane db -> cartQuantitiesSane (run rs db).
Proof.
  unfold run. revert db. induction rs as [|[now r] rs IH]; intros db H; simpl; [done|].
  apply IH. by apply handle_cartQuantities.
Qed.

(** ** Who may do what *)

Lemma Store_findByOwner_Some (user : ObjectId) (db : DB) (sid : ObjectId) (s : Store.t) :
  Store_findByOwner user db = Some (sid, s) ->
  stores db !! sid = Some s /\ Store.owner s = user.
Proof.
  unfold Store_findByOwner. intros H. apply find_some in H as [Hin Hown]. split.
  - by apply elem_of_map_to_list, list_elem_of_In.
  - by apply String.eqb_eq.
Qed.

(** The status route changes an order only for the owner of the order's
    seller, and never to [refunded]: whenever the database changes, the
    caller owns the store the order belongs to, the status is the requested
    one with one more timeline entry, and nothing but that order changed.
    A user who owns no store is turned away with 403. *)
Theorem status_route_needs_store_owner (now : nat) (user : ObjectId) (id : nat)
    (status : Order.Status) (note : option string) (db : DB) :
  let r := updateOrderStatus now user id status note db in
  (snd r <> db ->
   status <> Order.refunded
   /\ exists o s,
        orders db !! id = Some o
        /\ stores db !! Order.store o = Some s
        /\ Store.owner s = user
        /\ (exists o', fst r = OrdersJson 200 [o']
                       /\ orders (snd r) = <[id := o']> (orders db)
                       /\ Order.status o' = status
                       /\ Order.timeline o'
                          = Order.timeline o ++ [Order.mkEvent status now (default "" note)]
                       /\ Order.items o' = Order.items o
                       /\ Order.customer o' = Order.customer o)
        /\ products (snd r) = products db
        /\ stores (snd r) = stores db
        /\ carts (snd r) = carts db)
  /\ ((forall sid s, stores db !! sid = Some s -> Store.owner s <> user) ->
      r = (Reply 403 "Store not found or access denied", db))
  /\ (status = Order.refunded -> snd r = db).
Proof.
  cbn zeta. unfold updateOrderStatus. split; [|split].
  - destruct (Store_findByOwner user db) as [[sid s]|] eqn:Hf; [|done].
    apply Store_findByOwner_Some in Hf as [Hs Hown].
    destruct (Order.status_eqb status Order.refunded) eqn:Hst; [done|].
    destruct (orders db !! id) as [o|] eqn:Ho; [|done].
    destruct (String.eqb_spec (Order.store o) sid) as [E|]; simpl; [|done].
    intros _. split.
    { intros ->. done. }
    exists o, s. rewrite E. do 3 (split; [done|]). split; [|done].
    eexists. split; [done|]. simpl. done.
  - intros Hnone. destruct (Store_findByOwner user db) as [[sid s]|] eqn:Hf; [|done].
    apply Store_findByOwner_Some in Hf as [Hs Hown]. by destruct (Hnone sid s Hs).
  - intros ->. destruct (Store_findByOwner user db) as [[sid s]|]; done.
Qed.

(** Only the customer of an order can cancel or rate it: for anyone else
    both routes reply 403, and for an order that does not exist 404, with
    the database unchanged. *)
Theorem cancel_and_rate_need_the_customer (now : nat) (user : ObjectId) (id : nat)
    (reason review : option string) (rating : Z) (db : DB) :
  (forall o, orders db !! id = Some o -> Order.customer o <> user ->
     cancelOrder now user id reason db = (Reply 403 "Access denied", db)
     /\ ((1 <= rating <= 5)%Z ->
         rateOrder now user id rating review db = (Reply 403 "Access denied", db)))
  /\ (orders db !! id = None ->
      cancelOrder now user id reason db = (Reply 404 "Order not found", db)
      /\ ((1 <= rating <= 5)%Z ->
          rateOrder now user id rating review db = (Reply 404 "Order not found", db)))
  /\ (snd (cancelOrder now user id reason db) <> db ->
      exists o, orders db !! id = Some o /\ Order.customer o = user)
  /\ (snd (rateOrder now user id rating review db) <> db ->
      exists o, orders db !! id = Some o /\ Order.customer o = user
                /\ Order.status o = Order.delivered /\ (1 <= rating <= 5)%Z).
Proof.
  assert (Hvalid : (1 <= rating <= 5)%Z ->
                   negb ((1 <=? rating)%Z && (rating <=? 5)%Z) = false).
  { intros [? ?]. apply negb_false_iff, andb_true_iff. split; by apply Z.leb_le. }
  split; [|split; [|split]].
  - intros o Ho Hne. apply String.eqb_neq in Hne. split.
    + unfold cancelOrder. by rewrite Ho, Hne.
    + intros Hr. unfold rateOrder. by rewrite (Hvalid Hr), Ho, Hne.
  - intros Ho. split.
    + unfold cancelOrder. by rewrite Ho.
    + intros Hr. unfold rateOrder. by rewrite (Hvalid Hr), Ho.
  - unfold cancelOrder. destruct (orders db !! id) as [o|]; [|done].
    destruct (String.eqb_spec (Order.customer o) user); simpl; [|done].
    intros _. by exists o.
  - unfold rateOrder. destruct (negb _) eqn:Hr; [done|].
    apply negb_false_iff, andb_true_iff in Hr as [Hr1 Hr5]. apply Z.leb_le in Hr1, Hr5.
    destruct (orders db !! id) as [o|]; [|done].
    destruct (String.eqb_spec (Order.customer o) user); simpl; [|done].
    destruct (Order.status_eqb (Order.status o) Order.delivered) eqn:Hs; simpl; [|done].
    apply Order_status_eqb_eq in Hs. intros _. exists o. repeat split; try done; lia.
Qed.

(** ** Product stock helpers and the stock route *)

(** [updateStock] leaves a product without stock tracking alone.  On a
    tracked product it never stores a negative stock, marks the product
    out of stock exactly when the stock is 0, re-activates a product that
    was out of stock when units arrive, and changes no other status. *)
Theorem updateStock_keeps_status_in_step (quantity : Z) (p : Product.t) :
  let p' := Product.updateStock quantity p in
  (Product.trackStock p = false -> p' = p)
  /\ (Product.trackStock p = true ->
      Product.stock p' = Z.max 0 (Product.stock p + quantity)
      /\ (0 <= Product.stock p')%Z
      /\ (Product.status p' = Product.out_of_stock <-> Product.stock p' = 0%Z)
      /\ (Product.stock p' <> 0%Z -> Product.status p = Product.out_of_stock ->
          Product.status p' = Product.active)
      /\ (Product.stock p' <> 0%Z -> Product.status p <> Product.out_of_stock ->
          Product.status p' = Product.status p)
      /\ (Product_isAvailable p' = true <-> Product.status p' = Product.active))
  /\ Product.store p' = Product.store p
  /\ Product.sellingPrice p' = Product.sellingPrice p
  /\ Product.trackStock p' = Product.trackStock p.
Proof.
  destruct p as [st nm pr un im stock track status].
  cbn zeta. unfold Product.updateStock, Product_isAvailable. simpl.
  destruct track; simpl; [|done].
  split; [done|]. split.
  2:{ destruct (Z.max 0 (stock + quantity) =? 0)%Z; [done|]. by destruct status. }
  intros _.
  destruct (Z.eqb_spec (Z.max 0 (stock + quantity)) 0) as [E|Hne]; simpl.
  - rewrite E. repeat split; intros; try done; lia.
  - assert (Hpos : (0 <? Z.max 0 (stock + quantity))%Z = true) by (apply Z.ltb_lt; lia).
    destruct status; simpl; rewrite ?Hpos; repeat split; intros; try done; try lia.
Qed.

(** The two availability readings of a product agree as long as its stock
    is not negative: it is available exactly when it is active and its
    stock status is not "out of stock".  With a negative stock they part: a
    tracked product is then reported low on stock or in stock, never out
    of stock, yet is not available. *)
Theorem availability_matches_stock_status (lowStockThreshold : Z) (p : Product.t) :
  ((0 <= Product.stock p)%Z ->
   (Product_isAvailable p = true
    <-> Product.status p = Product.active
        /\ Product_stockStatus lowStockThreshold p <> st_out_of_stock))
  /\ ((Product.stock p < 0)%Z -> Product.trackStock p = true ->
      Product_isAvailable p = false
      /\ Product_stockStatus lowStockThreshold p <> st_out_of_stock)
  /\ (Product.trackStock p = false ->
      Product_stockStatus lowStockThreshold p = st_unlimited)
  /\ (forall db i, products db !! Cart.product i = Some p ->
        (1 <= Cart.quantity i)%Z -> available db i = true -> Product_isAvailable p = true).
Proof.
  destruct p as [st nm pr un im stock track status].
  unfold Product_isAvailable, Product_stockStatus, available. simpl.
  split; [|split; [|split]].
  - intros Hs.
    destruct track, status; simpl;
      destruct (Z.eqb_spec stock 0), (Z.ltb_spec 0 stock),
        (Z.leb_spec stock lowStockThreshold);
      simpl; (split; [intros ?; try done; try lia; by split | intros [? ?]; try done; lia]).
  - intros Hneg ->. simpl.
    destruct (Z.eqb_spec stock 0), (Z.ltb_spec 0 stock), (Z.leb_spec stock lowStockThreshold);
      simpl; try lia; split; try done; by rewrite andb_false_r.
  - by intros ->.
  - intros db i Hp Hq. rewrite Hp. simpl.
    destruct status, track; simpl; try done;
      destruct (Z.leb_spec (Cart.quantity i) stock), (Z.ltb_spec 0 stock); try done; lia.
Qed.


(** ** The discount percentage *)

Lemma this_plus_half (x : Qc) : (this (x + Q2Qc (1 # 2))%Qc == this x + (1 # 2))%Q.
Proof. unfold Qcplus, Q2Qc. simpl this. by rewrite !Qred_correct. Qed.

Lemma Math_round_lower (x : Qc) (lo : Z) :
  (inject_Z lo <= this x)%Q -> (lo <= Math_round x)%Z.
Proof.
  intros H. unfold Math_round. rewrite <- (Qfloor_Z lo). apply Qfloor_resp_le.
  rewrite this_plus_half. lra.
Qed.

Lemma Math_round_upper (x : Qc) (hi : Z) :
  (this x <= inject_Z hi)%Q -> (Math_round x <= hi)%Z.
Proof.
  intros H. unfold Math_round.
  pose proof (Qfloor_le (this (x + Q2Qc (1 # 2))%Qc)) as Hf.
  pose proof (this_plus_half x) as E.
  assert (Hlt : (inject_Z (Qfloor (this (x + Q2Qc (1 # 2))%Qc)) < inject_Z (hi + 1))%Q).
  { rewrite inject_Z_plus. change (inject_Z 1) with 1%Q.
    apply Qle_lt_trans with (this x + (1 # 2))%Q; [|lra].
    apply Qle_trans with (this (x + Q2Qc (1 # 2))%Qc); [exact Hf|].
    apply Qle_lteq. right. exact E. }
  rewrite <- Zlt_Qlt in Hlt. lia.
Qed.

Lemma this_discount (b s : Qc) :
  (this ((b - s) / b * Qc_of_Z 100)%Qc == (this b - this s) / this b * 100)%Q.
Proof.
  unfold Qcdiv, Qcmult, Qcminus, Qcplus, Qcopp, Qcinv, Q2Qc, Qc_of_Z. simpl this.
  rewrite !Qred_correct. reflexivity.
Qed.

(** The discount percentage is 0 without a positive base price; for a
    selling price between 0 and the base price it lies between 0 and 100,
    0 at the base price and 100 at a selling price of 0; a selling price
    above the base price gives a discount of 0 or less. *)
Theorem discountPercentage_range (basePrice sellingPrice : Qc) :
  (~ (0 < basePrice)%Qc -> Product_discountPercentage basePrice sellingPrice = 0%Z)
  /\ ((0 < basePrice)%Qc ->
      ((0 <= sellingPrice)%Qc -> (sellingPrice <= basePrice)%Qc ->
       (0 <= Product_discountPercentage basePrice sellingPrice <= 100)%Z)
      /\ (sellingPrice = basePrice -> Product_discountPercentage basePrice sellingPrice = 0%Z)
      /\ (sellingPrice = 0%Qc -> Product_discountPercentage basePrice sellingPrice = 100%Z)
      /\ ((basePrice <= sellingPrice)%Qc ->
          (Product_discountPercentage basePrice sellingPrice <= 0)%Z)).
Proof.
  unfold Product_discountPercentage. split.
  - intros H. by rewrite decide_False.
  - intros Hb. rewrite decide_True by done.
    assert (Hb' : (0 < this basePrice)%Q) by exact Hb.
    assert (Hrange : forall lo hi : Q,
               (lo * this basePrice <= (this basePrice - this sellingPrice) * 100)%Q ->
               ((this basePrice - this sellingPrice) * 100 <= hi * this basePrice)%Q ->
               (lo <= this ((basePrice - sellingPrice) / basePrice * Qc_of_Z 100)%Qc
                /\ this ((basePrice - sellingPrice) / basePrice * Qc_of_Z 100)%Qc <= hi)%Q).
    { intros lo hi Hlo Hhi. rewrite this_discount.
      assert (E : ((this basePrice - this sellingPrice) / this basePrice * 100
                   == (this basePrice - this sellingPrice) * 100 / this basePrice)%Q).
      { field. lra. }
      rewrite E. split.
      - by apply Qle_shift_div_l.
      - by apply Qle_shift_div_r. }
    split; [|split; [|split]].
    + intros Hs0 Hsb. assert (Hs0' : (0 <= this sellingPrice)%Q) by exact Hs0.
      assert (Hsb' : (this sellingPrice <= this basePrice)%Q) by exact Hsb.
      destruct (Hrange 0%Q 100%Q) as [L U]; [lra..|]. split.
      * by apply Math_round_lower.
      * by apply Math_round_upper.
    + intros ->. destruct (Hrange 0%Q 0%Q) as [L U]; [lra..|].
      apply Z.le_antisymm; [by apply Math_round_upper | by apply Math_round_lower].
    + intros ->. change (this 0%Qc) with 0%Q in Hrange.
      destruct (Hrange 100%Q 100%Q) as [L U]; [lra..|].
      apply Z.le_antisymm; [by apply Math_round_upper | by apply Math_round_lower].
    + intros Hbs. assert (Hbs' : (this basePrice <= this sellingPrice)%Q) by exact Hbs.
      apply Math_round_upper.
      rewrite this_discount.
      assert (E : ((this basePrice - this sellingPrice) / this basePrice * 100
                   == (this basePrice - this sellingPrice) * 100 / this basePrice)%Q).
      { field. lra. }
      rewrite E. apply Qle_shift_div_r; [done|]. change (inject_Z 0) with 0%Q. lra.
Qed.

(** ** The cart routes against the cart model *)

Lemma find_bump (pid : ObjectId) (q : Z) (pr : Qc) (l : list Cart.item) (i0 : Cart.item) :
  List.find (Cart.is_product pid) l = Some i0 ->
  List.find (Cart.is_product pid) (Cart.bump pid q pr l)
  = Some (Cart.mkItem (Cart.product i0) (Cart.quantity i0 + q) pr).
Proof.
  induction l as [|i l IH]; simpl; [done|].
  destruct (Cart.is_product pid i) eqn:E; simpl.
  - intros [= <-]. unfold Cart.is_product in *. simpl. by rewrite E.
  - rewrite E. done.
Qed.

Lemma find_set_quantity (pid : ObjectId) (q : Z) (l : list Cart.item) (i0 : Cart.item) :
  List.find (Cart.is_product pid) l = Some i0 ->
  List.find (Cart.is_product pid) (Cart.set_quantity pid q l)
  = Some (Cart.mkItem (Cart.product i0) q (Cart.price i0)).
Proof.
  induction l as [|i l IH]; simpl; [done|].
  destruct (Cart.is_product pid i) eqn:E; simpl.
  - intros [= <-]. unfold Cart.is_product in *. simpl. by rewrite E.
  - rewrite E. done.
Qed.

Lemma find_app_new (pid : ObjectId) (q : Z) (pr : Qc) (l : list Cart.item) :
  List.find (Cart.is_product pid) l = None ->
  List.find (Cart.is_product pid) (l ++ [Cart.mkItem pid q pr]) = Some (Cart.mkItem pid q pr).
Proof.
  induction l as [|i l IH]; simpl.
  - intros _. unfold Cart.is_product. simpl. by rewrite String.eqb_refl.
  - destruct (Cart.is_product pid i); [done|]. exact IH.
Qed.

Lemma others_bump (pid : ObjectId) (q : Z) (pr : Qc) (l : list Cart.item) :
  List.filter (fun i => negb (Cart.is_product pid i)) (Cart.bump pid q pr l)
  = List.filter (fun i => negb (Cart.is_product pid i)) l.
Proof.
  induction l as [|i l IH]; simpl; [done|].
  destruct (Cart.is_product pid i) eqn:E; simpl.
  - unfold Cart.is_product in *. simpl. by rewrite E.
  - by rewrite E, IH.
Qed.

Lemma others_set_quantity (pid : ObjectId) (q : Z) (l : list Cart.item) :
  List.filter (fun i => negb (Cart.is_product pid i)) (Cart.set_quantity pid q l)
  = List.filter (fun i => negb (Cart.is_product pid i)) l.
Proof.
  induction l as [|i l IH]; simpl; [done|].
  destruct (Cart.is_product pid i) eqn:E; simpl.
  - unfold Cart.is_product in *. simpl. by rewrite E.
  - by rewrite E, IH.
Qed.

Lemma others_app_new (pid : ObjectId) (q : Z) (pr : Qc) (l : list Cart.item) :
  List.filter (fun i => negb (Cart.is_product pid i)) (l ++ [Cart.mkItem pid q pr])
  = List.filter (fun i => negb (Cart.is_product pid i)) l.
Proof.
  rewrite List.filter_app. simpl. unfold Cart.is_product at 2. simpl.
  rewrite String.eqb_refl. simpl. by rewrite app_nil_r.
Qed.

(** [POST /add], for a quantity sent as a JSON number.  On success the
    product that the request's id denotes is active and so is its seller,
    and only the caller's cart changes.  For an id in its stored form (lower
    case) the route, which spells the cart update out instead of calling
    the model's [addItem], does what [addItem] does with the product's
    current selling price: the cart's line of the product carries that
    price and, for a tracked product, no more than the stock, and the lines
    of other products are as before.  When no line carries the request's
    string, a line is appended: for an id in another letter case than the
    stored one, a second line of a product that is in the cart already.
    Any other reply leaves the data as it was. *)
Theorem addToCart_is_addItem_within_stock (now : nat) (user : ObjectId)
    (productId : string) (quantity : Z) (db : DB) :
  let r := addToCart now user productId quantity db in
  let old := default (Cart.mk [] now) (carts db !! user) in
  match fst r with
  | CartJson code c =>
      code = 200%nat
      /\ (1 <= quantity)%Z
      /\ exists p s,
           products db !! ObjectId_cast productId = Some p
           /\ Product.status p = Product.active
           /\ stores db !! Product.store p = Some s
           /\ Store.isActive s = true
           /\ snd r = set_carts (insert user c) db
           /\ (ObjectId_cast productId = productId ->
               c = Cart.addItem now productId quantity (Product.sellingPrice p) old
               /\ (exists line,
                     List.find (Cart.is_product productId) (Cart.items c) = Some line
                     /\ Cart.price line = Product.sellingPrice p
                     /\ (Product.trackStock p = true ->
                         (Cart.quantity line <= Product.stock p)%Z))
               /\ List.filter (fun i => negb (Cart.is_product productId i)) (Cart.items c)
                  = List.filter (fun i => negb (Cart.is_product productId i)) (Cart.items old))
           /\ (List.find (Cart.is_product productId) (Cart.items old) = None ->
               Cart.items c
               = Cart.items old
                 ++ [Cart.mkItem (ObjectId_cast productId) quantity (Product.sellingPrice p)]
               /\ (In (ObjectId_cast productId) (map Cart.product (Cart.items old)) ->
                   ~ List.NoDup (map Cart.product (Cart.items c))))
  | Reply _ _ => snd r = db
  | OrdersJson _ _ => False
  end.
Proof.
  cbv zeta. unfold addToCart.
  destruct (Z.ltb_spec quantity 1) as [|Hq]; [done|].
  destruct (products db !! ObjectId_cast productId) as [p|] eqn:Hp; [|done].
  destruct (Product.status p) eqn:Hst; cbn [Product.status_eqb negb]; try done.
  destruct (stores db !! Product.store p) as [s|] eqn:Hs; [|done].
  destruct (Store.isActive s) eqn:Hact; cbn [negb]; [|done].
  destruct (Product.trackStock p && (Product.stock p <? quantity)%Z) eqn:H1; [done|].
  set (old := default (Cart.mk [] now) (carts db !! user)).
  unfold Cart.addItem.
  destruct (List.find (Cart.is_product productId) (Cart.items old)) as [i0|] eqn:Hfind.
  - destruct (Product.trackStock p && (Product.stock p <? Cart.quantity i0 + quantity)%Z)
      eqn:H2; [done|].
    cbn [fst snd]. split; [done|]. split; [done|]. exists p, s.
    do 5 (split; [done|]). split; [|done].
    intros _. split; [done|]. cbn [Cart.preSave Cart.items]. split; [|by apply others_bump].
    eexists. split; [by apply find_bump|]. split; [done|].
    intros Ht. rewrite Ht in H2. cbn in H2. cbn [Cart.quantity]. by apply Z.ltb_ge in H2.
  - cbn [fst snd]. split; [done|]. split; [done|]. exists p, s.
    do 5 (split; [done|]). cbn [Cart.preSave Cart.items]. split.
    + intros E. rewrite E. split; [done|]. split; [|by apply others_app_new].
      eexists. split; [by apply find_app_new|]. split; [done|].
      intros Ht. rewrite Ht in H1. cbn in H1. cbn [Cart.quantity]. by apply Z.ltb_ge in H1.
    + intros _. split; [done|]. intros Hin Hnd. rewrite map_app in Hnd. cbn in Hnd.
      apply NoDup_ListNoDup, NoDup_app in Hnd as (_ & Hnd & _).
      apply (Hnd (ObjectId_cast productId)); [by apply list_elem_of_In|].
      by apply list_elem_of_singleton.
Qed.

(** [PUT /update], for a quantity sent as a JSON number.  It answers 404
    without a stored cart and otherwise never touches the lines that do
    not carry the request's string.  With quantity 0 it is
    [DELETE /remove]; with a positive quantity the product that the
    request's id denotes is active and, if tracked, has the stock, and no
    line appears or disappears: the line that carries the request's string,
    if there is one, gets the quantity, and otherwise (a product that is
    not in the cart, or an id in another letter case than the stored one)
    the lines stay as they were, still with a 200.  Any other reply leaves
    the data as it was. *)
Theorem updateCart_effect (now : nat) (user : ObjectId) (productId : string)
    (quantity : Z) (db : DB) :
  let r := updateCart now user productId quantity db in
  match fst r with
  | CartJson code c =>
      code = 200%nat
      /\ (0 <= quantity)%Z
      /\ exists cart,
           carts db !! user = Some cart
           /\ snd r = set_carts (insert user c) db
           /\ Cart.lastUpdated c = now
           /\ List.filter (fun i => negb (Cart.is_product productId i)) (Cart.items c)
              = List.filter (fun i => negb (Cart.is_product productId i)) (Cart.items cart)
           /\ (quantity = 0%Z ->
               r = removeFromCart now user productId db
               /\ ~ In productId (map Cart.product (Cart.items c)))
           /\ (quantity <> 0%Z ->
               map Cart.product (Cart.items c) = map Cart.product (Cart.items cart)
               /\ (~ In productId (map Cart.product (Cart.items cart)) ->
                   Cart.items c = Cart.items cart)
               /\ exists p,
                    products db !! ObjectId_cast productId = Some p
                    /\ Product.status p = Product.active
                    /\ (Product.trackStock p = true -> (quantity <= Product.stock p)%Z)
                    /\ forall line,
                         List.find (Cart.is_product productId) (Cart.items cart) = Some line ->
                         List.find (Cart.is_product productId) (Cart.items c)
                         = Some (Cart.mkItem productId quantity (Cart.price line)))
  | Reply code _ => snd r = db /\ (carts db !! user = None -> 0 <= quantity -> code = 404%nat)%Z
  | OrdersJson _ _ => False
  end.
Proof.
  cbv zeta. unfold updateCart, removeFromCart.
  destruct (Z.ltb_spec quantity 0) as [|Hq]; [split; [done|lia]|].
  destruct (carts db !! user) as [cart|] eqn:Hc; [|done].
  destruct (Z.eqb_spec quantity 0) as [->|Hne].
  - cbn [fst snd]. split; [done|]. split; [done|]. exists cart.
    split; [done|]. split; [done|]. split; [done|].
    cbn [Cart.preSave Cart.removeItem Cart.items].
    split; [by rewrite filter_idem|]. split; [|done]. intros _. split; [done|].
    intros Hin. apply in_map_iff in Hin as (i & Hi & Hin).
    apply List.filter_In in Hin as [_ Hin]. unfold Cart.is_product in Hin.
    rewrite Hi, String.eqb_refl in Hin. done.
  - destruct (products db !! ObjectId_cast productId) as [p|] eqn:Hp; [|by split].
    destruct (Product.status p) eqn:Hst; cbn [Product.status_eqb negb]; try by split.
    destruct (Product.trackStock p && (Product.stock p <? quantity)%Z) eqn:H1; [by split|].
    cbn [fst snd]. split; [done|]. split; [done|]. exists cart.
    split; [done|]. split; [done|]. split; [done|].
    assert (Hstock : Product.trackStock p = true -> (quantity <= Product.stock p)%Z).
    { intros Ht. rewrite Ht in H1. cbn in H1. by apply Z.ltb_ge in H1. }
    unfold Cart.updateItemQuantity.
    destruct (List.find (Cart.is_product productId) (Cart.items cart)) as [i0|] eqn:Hfind.
    + destruct (Z.leb_spec quantity 0) as [|_]; [lia|].
      cbn [Cart.preSave Cart.items].
      split; [by apply others_set_quantity|]. split; [done|]. intros _.
      split; [by apply map_product_set_quantity|].
      split.
      { intros Hin. destruct (find_product_Some _ _ _ Hfind) as [Hi0 E].
        exfalso. apply Hin. rewrite <- E. by apply in_map. }
      exists p. split; [done|]. split; [done|]. split; [done|].
      intros line [= <-]. rewrite (find_set_quantity _ _ _ _ Hfind).
      by destruct (find_product_Some _ _ _ Hfind) as [_ ->].
    + cbn [Cart.preSave Cart.items].
      split; [done|]. split; [done|]. intros _. split; [done|]. split; [done|].
      exists p. split; [done|]. split; [done|]. split; [done|]. intros line [=].
Qed.

(** ** The slug of a name *)

Lemma isDash_eq (c : ascii) : isDash c = true <-> c = "-"%char.
Proof. apply Ascii.eqb_eq. Qed.

Lemma isDash_not_slug (c : ascii) : isDash c = true -> isSlugChar c = false.
Proof. intros H. apply isDash_eq in H. by subst c. Qed.

Lemma toLowerCase_slug (c : ascii) : isSlugChar c = true -> toLowerCase_char c = c.
Proof. destruct c as [[] [] [] [] [] [] [] []]; vm_compute; done. Qed.

Lemma dashRuns_sepOk (b : bool) (l : list ascii) : sepOk b (dashRuns b l) = true.
Proof.
  revert b. induction l as [|c l IH]; intros b; simpl; [done|].
  destruct (isSlugChar c) eqn:E; simpl.
  - by rewrite E.
  - destruct b; [done|]. simpl. by rewrite IH.
Qed.

Lemma sepOk_weaken (l : list ascii) : sepOk true l = true -> sepOk false l = true.
Proof.
  destruct l as [|c l]; simpl; [done|]. destruct (isSlugChar c); [done|].
  rewrite andb_false_r. done.
Qed.

Lemma sepOk_Forall (b : bool) (l : list ascii) :
  sepOk b l = true -> Forall (fun c => isSlugChar c = true \/ c = "-"%char) l.
Proof.
  revert b. induction l as [|c l IH]; intros b; simpl; [constructor|].
  destruct (isSlugChar c) eqn:E.
  - intros H. constructor; [by left | by eapply IH].
  - intros H. apply andb_true_iff in H as [H1 H2]. apply andb_true_iff in H1 as [H1 _].
    constructor; [right; by apply isDash_eq | by eapply IH].
Qed.

Lemma sepOk_head (l : list ascii) : sepOk true l = true -> head l <> Some "-"%char.
Proof.
  destruct l as [|c l]; simpl; [done|]. intros H [= ->]. simpl in H. done.
Qed.

Lemma sepOk_adjacent (b : bool) (l : list ascii) (i : nat) :
  sepOk b l = true -> l !! i = Some "-"%char -> l !! S i <> Some "-"%char.
Proof.
  revert b i. induction l as [|c l IH]; intros b i; [done|].
  destruct i as [|i].
  - intros H [= ->]. simpl in H. rewrite andb_true_iff in H. destruct H as [_ H].
    cbn. intros Hl. apply (sepOk_head l H). by destruct l.
  - simpl. destruct (isSlugChar c); intros H.
    + exact (IH _ i H).
    + apply andb_true_iff in H as [_ H]. exact (IH _ i H).
Qed.

Lemma sepOk_removelast (b : bool) (l : list ascii) :
  sepOk b l = true -> sepOk b (removelast l) = true.
Proof.
  revert b. induction l as [|c l IH]; intros b; [done|].
  destruct l as [|c' l]; [done|].
  change (removelast (c :: c' :: l)) with (c :: removelast (c' :: l)).
  change (sepOk b (c :: c' :: l)) with
    (if isSlugChar c then sepOk false (c' :: l)
     else isDash c && negb b && sepOk true (c' :: l)).
  change (sepOk b (c :: removelast (c' :: l))) with
    (if isSlugChar c then sepOk false (removelast (c' :: l))
     else isDash c && negb b && sepOk true (removelast (c' :: l))).
  destruct (isSlugChar c); intros H.
  - by apply IH.
  - apply andb_true_iff in H as [H1 H2]. rewrite H1. by apply IH.
Qed.

Lemma sepOk_last (b : bool) (l : list ascii) :
  sepOk b l = true -> last l = Some "-"%char -> last (removelast l) <> Some "-"%char.
Proof.
  intros H Hl. apply last_Some in Hl as [l0 ->]. rewrite removelast_last.
  intros Hl0. apply last_Some in Hl0 as [l1 ->].
  apply (sepOk_adjacent _ _ (length l1) H); clear; induction l1; done.
Qed.

Lemma head_removelast (l : list ascii) (c : ascii) :
  head (removelast l) = Some c -> head l = Some c.
Proof. destruct l as [|c0 [|c1 l]]; simpl; done. Qed.

Lemma trimDash_shape (l : list ascii) :
  sepOk false l = true ->
  sepOk false (trimDash l) = true
  /\ head (trimDash l) <> Some "-"%char
  /\ last (trimDash l) <> Some "-"%char.
Proof.
  intros H. unfold trimDash.
  set (l1 := match l with
             | c :: l' => if isDash c then l' else l
             | [] => []
             end).
  assert (H1 : sepOk false l1 = true /\ head l1 <> Some "-"%char).
  { subst l1. destruct l as [|c l]; [done|]. destruct (isDash c) eqn:E.
    - simpl in H. rewrite (isDash_not_slug _ E), E in H. simpl in H.
      split; [by apply sepOk_weaken | by apply sepOk_head].
    - split; [done|]. simpl. intros [= ->]. done. }
  destruct H1 as [H1 Hh]. clearbody l1.
  destruct (last l1) as [c|] eqn:El.
  - destruct (isDash c) eqn:E.
    + apply isDash_eq in E. subst c. split; [by apply sepOk_removelast|]. split.
      * intros Hr. by apply head_removelast in Hr.
      * by eapply sepOk_last.
    + split; [done|]. split; [done|]. rewrite El. intros [= ->]. done.
  - split; [done|]. split; [done|]. by rewrite El.
Qed.

Lemma dashRuns_fixed (b : bool) (l : list ascii) : sepOk b l = true -> dashRuns b l = l.
Proof.
  revert b. induction l as [|c l IH]; intros b; simpl; [done|].
  destruct (isSlugChar c).
  - intros H. by rewrite IH.
  - intros H. apply andb_true_iff in H as [H1 H2]. apply andb_true_iff in H1 as [Hd Hb].
    apply isDash_eq in Hd. subst c. destruct b; [done|]. by rewrite IH.
Qed.

Lemma trimDash_fixed (l : list ascii) :
  head l <> Some "-"%char -> last l <> Some "-"%char -> trimDash l = l.
Proof.
  intros Hh Hl. unfold trimDash. destruct l as [|c l]; [done|].
  destruct (isDash c) eqn:E.
  { apply isDash_eq in E. by subst c. }
  destruct (last (c :: l)) as [c'|] eqn:El; [|done].
  destruct (isDash c') eqn:E'; [|done].
  apply isDash_eq in E'. by subst c'.
Qed.

Lemma toLowerCase_fixed (l : list ascii) :
  Forall (fun c => isSlugChar c = true \/ c = "-"%char) l -> map toLowerCase_char l = l.
Proof.
  induction 1 as [|c l [Hc| ->] _ IH]; simpl; [done| |].
  - by rewrite toLowerCase_slug, IH.
  - by rewrite IH.
Qed.

Lemma filter_slug_dashRuns (b : bool) (l : list ascii) :
  List.filter isSlugChar (dashRuns b l) = List.filter isSlugChar l.
Proof.
  revert b. induction l as [|c l IH]; intros b; simpl; [done|].
  destruct (isSlugChar c) eqn:E; simpl.
  - by rewrite E, IH.
  - destruct b; simpl; by rewrite IH.
Qed.

Lemma filter_slug_trimDash (l : list ascii) :
  List.filter isSlugChar (trimDash l) = List.filter isSlugChar l.
Proof.
  unfold trimDash.
  set (l1 := match l with
             | c :: l' => if isDash c then l' else l
             | [] => []
             end).
  assert (H1 : List.filter isSlugChar l1 = List.filter isSlugChar l).
  { subst l1. destruct l as [|c l]; [done|]. destruct (isDash c) eqn:E; [|done].
    simpl. by rewrite (isDash_not_slug _ E). }
  rewrite <- H1. clearbody l1.
  destruct (last l1) as [c|] eqn:El; [|done].
  destruct (isDash c) eqn:E; [|done].
  apply last_Some in El as [l0 ->]. rewrite removelast_last, List.filter_app. simpl.
  by rewrite (isDash_not_slug _ E), app_nil_r.
Qed.

Lemma dashRuns_no_slug (b : bool) (l : list ascii) :
  Forall (fun c => isSlugChar c = false) l ->
  dashRuns b l = if b then [] else match l with [] => [] | _ => ["-"%char] end.
Proof.
  intros H. revert b. induction H as [|c l Hc _ IH]; intros b; simpl.
  - by destruct b.
  - rewrite Hc. destruct b; rewrite IH; done.
Qed.

Lemma slugify_chars (name : string) :
  let out := String.list_ascii_of_string (slugify name) in
  sepOk false out = true /\ head out <> Some "-"%char /\ last out <> Some "-"%char.
Proof.
  cbv zeta. unfold slugify. rewrite String.list_ascii_of_string_of_list_ascii.
  apply trimDash_shape, dashRuns_sepOk.
Qed.

(** A slug is made of small letters, digits and dashes; it neither starts
    nor ends with a dash and has no two dashes in a row. *)
Theorem slugify_shape (name : string) :
  let slug := String.list_ascii_of_string (slugify name) in
  Forall (fun c => isSlugChar c = true \/ c = "-"%char) slug
  /\ head slug <> Some "-"%char
  /\ last slug <> Some "-"%char
  /\ (forall i, slug !! i = Some "-"%char -> slug !! S i <> Some "-"%char).
Proof.
  cbv zeta. destruct (slugify_chars name) as (H & Hh & Hl).
  split; [by eapply sepOk_Forall|]. split; [done|]. split; [done|].
  intros i. by eapply sepOk_adjacent.
Qed.

(** The slug of a slug is the slug itself. *)
Theorem slugify_idempotent (name : string) : slugify (slugify name) = slugify name.
Proof.
  destruct (slugify_chars name) as (H & Hh & Hl). cbv zeta in *.
  unfold slugify at 1.
  rewrite (toLowerCase_fixed _ (sepOk_Forall _ _ H)), (dashRuns_fixed _ _ H),
    (trimDash_fixed _ Hh Hl).
  apply String.string_of_list_ascii_of_string.
Qed.

(** The slug keeps the letters and digits of the lower-cased name, all of
    them and in their order; it is empty exactly for a name without a letter
    or digit. *)
Theorem slugify_keeps_letters_and_digits (name : string) :
  let lower := map toLowerCase_char (String.list_ascii_of_string name) in
  List.filter isSlugChar (String.list_ascii_of_string (slugify name)) = List.filter isSlugChar lower
  /\ (slugify name = EmptyString <-> Forall (fun c => isSlugChar c = false) lower).
Proof.
  cbv zeta. unfold slugify. rewrite String.list_ascii_of_string_of_list_ascii.
  set (lower := map toLowerCase_char (String.list_ascii_of_string name)).
  assert (Hf : List.filter isSlugChar (trimDash (dashRuns false lower))
               = List.filter isSlugChar lower)
    by by rewrite filter_slug_trimDash, filter_slug_dashRuns.
  split; [done|]. split.
  - intros E.
    assert (E' : trimDash (dashRuns false lower) = []).
    { rewrite <- (String.list_ascii_of_string_of_list_ascii (trimDash _)). by rewrite E. }
    rewrite E' in Hf. simpl in Hf. clear -Hf.
    induction lower as [|c l IH]; [constructor|]. simpl in Hf.
    destruct (isSlugChar c) eqn:Ec; [done|]. constructor; [done | by apply IH].
  - intros H. rewrite (dashRuns_no_slug false lower H). by destruct lower.
Qed.

(** ** The further properties at work on the scenario *)

Lemma cart_partition_by_seller_witness :
  storeGroups (populate Scenario.shop (cartLines Scenario.shop "alice"))
  = Some Market.aliceGroups
  /\ map fst Market.aliceGroups = ["s1"; "s2"]
  /\ List.NoDup (map fst Market.aliceGroups)
  /\ map fst (concat (map snd Market.aliceGroups)) ≡ₚ cartLines Scenario.shop "alice".
Proof.
  assert (H : storeGroups (populate Scenario.shop (cartLines Scenario.shop "alice"))
              = Some Market.aliceGroups) by (vm_compute; reflexivity).
  split; [exact H|]. split; [vm_compute; reflexivity|].
  destruct (cart_partition_by_seller _ _ _ H) as (Hnd & _ & _ & _ & Hperm).
  split; [exact Hnd | exact Hperm].
Defined.

Lemma order_history_kept_witness :
  orders Scenario.placed !! 0 = Some Scenario.appleOrder
  /\ exists o',
       orders (run Scenario.day Scenario.placed) !! 0 = Some o'
       /\ orderExtends Scenario.appleOrder o'.
Proof.
  assert (H : orders Scenario.placed !! 0 = Some Scenario.appleOrder)
    by (vm_compute; reflexivity).
  split; [exact H|].
  exact (proj2 (order_history_kept Scenario.day Scenario.placed 0 Scenario.appleOrder H)).
Defined.

Lemma timeline_ends_with_status_witness :
  Forall (fun o => lastStatus o = Some (Order.status o)) (orders Scenario.placed)
  /\ length (orders Scenario.placed) = 2
  /\ Forall (fun o => lastStatus o = Some (Order.status o))
            (orders (run Scenario.day Scenario.placed)).
Proof.
  assert (H : Forall (fun o => lastStatus o = Some (Order.status o))
                     (orders Scenario.placed))
    by (repeat constructor; vm_compute; reflexivity).
  split; [exact H|]. split; [vm_compute; reflexivity|].
  exact (timeline_ends_with_status Scenario.day Scenario.placed H).
Defined.

Lemma scenario_cart_quantities : cartQuantitiesSane Scenario.shop.
Proof.
  change (map_Forall (fun _ c => Forall (fun i => (1 <= Cart.quantity i)%Z) (Cart.items c))
                     (carts Scenario.shop)).
  unfold Scenario.shop. cbn [carts].
  repeat (apply map_Forall_insert_2; [repeat constructor; by vm_compute|]).
  apply map_Forall_empty.
Qed.

Lemma run_keeps_cart_quantities_witness :
  cartQuantitiesSane Scenario.shop
  /\ cartQuantitiesSane
       (run [(1, AddToCart "bob" "apple" 2); (2, UpdateCart "bob" "plum" 5);
             (3, AddToCart "bob" "apple" 1); (4, GetCart "alice")] Scenario.shop).
Proof.
  split; [exact scenario_cart_quantities|].
  exact (run_keeps_cart_quantities _ Scenario.shop scenario_cart_quantities).
Defined.

(** An id in capital letters: the product is found, the line that holds it
    is not, and the cart gets a second line of the product. *)
Example scenario_upper_case_id_adds_a_line :
  ObjectId_cast "CAFE" = "cafe"
  /\ map (fun i => (Cart.product i, Cart.quantity i)) (cartLines Market.shop "dora")
     = [("cafe", 2%Z)]
  /\ map (fun i => (Cart.product i, Cart.quantity i))
         (cartLines (snd (addToCart 1 "dora" "CAFE" 1 Market.shop)) "dora")
     = [("cafe", 2%Z); ("cafe", 1%Z)]
  /\ map (fun i => (Cart.product i, Cart.quantity i))
         (cartLines (snd (addToCart 1 "dora" "cafe" 1 Market.shop)) "dora")
     = [("cafe", 3%Z)]
  /\ (exists c, fst (updateCart 1 "dora" "CAFE" 7 Market.shop) = CartJson 200 c
                /\ map (fun i => (Cart.product i, Cart.quantity i)) (Cart.items c)
                   = [("cafe", 2%Z)]).
Proof.
  split; [by vm_compute|]. split; [by vm_compute|]. split; [by vm_compute|].
  split; [by vm_compute|]. eexists. split; by vm_compute.
Qed.
